(** * esrally.track.loader: track repository, specification reader and
    asset stager

    A shallow embedding of [esrally/track/loader.py].  Values that come out
    of [json.loads] are modelled by the inductive type [json]; Python
    exceptions by the type [exn]; code that can raise returns a [result];
    code that touches the file system, the network or the git working copy
    threads an abstract world and records the calls it makes to its
    collaborators in a trace of [event]s. *)

From Stdlib Require Import ZArith String Ascii Bool List Lia DecimalString.
From stdpp Require Import gmap strings.

Set Warnings "-register-all".
Local Open Scope Z_scope.

(** ** Python values and exceptions *)

(** The value of a parsed JSON document.  An object is a [dict] with string
    keys, kept in insertion order; [JNull] is Python's [None].  Floating
    point numbers are not modelled. *)
Inductive json : Type :=
| JNull
| JBool (b : bool)
| JInt (z : Z)
| JStr (s : string)
| JList (l : list json)
| JObj (kvs : list (string * json)).

(** The exceptions the loader raises or lets through. *)
Inductive exn : Type :=
| TrackSyntaxError (msg : string)
| SystemSetupError (msg : string)
| DataError (msg : string)
| SupplyError
| KeyError (key : string)
| TypeError
| URLError
| OSError
| OtherError (tag : string).

Inductive result (A : Type) : Type :=
| Ok (a : A)
| Raise (e : exn).
Arguments Ok {A} a.
Arguments Raise {A} e.

Definition rbind {A B} (r : result A) (k : A -> result B) : result B :=
  match r with
  | Ok a => k a
  | Raise e => Raise e
  end.

Notation "'let*' x ':=' r 'in' k" := (rbind r (fun x => k))
  (at level 10, x name, r at level 100, k at level 200).

(** [for x in xs: out.append(f(x))], stopping at the first exception. *)
Fixpoint rmap {A B} (f : A -> result B) (xs : list A) : result (list B) :=
  match xs with
  | [] => Ok []
  | x :: xs' => let* y := f x in let* ys := rmap f xs' in Ok (y :: ys)
  end.

(** What is outside the modelled fragment of Python: the [repr] of lists and
    dicts, which [%s] prints for a container. *)
Class PyRuntime := { py_repr : json -> string }.

Module Py.

(** [%d] applied to an [int]. *)
Definition string_of_Z (z : Z) : string := NilZero.string_of_int (Z.to_int z).

(** [bool(v)]. *)
Definition truthy (v : json) : bool :=
  match v with
  | JNull => false
  | JBool b => b
  | JInt z => negb (z =? 0)
  | JStr s => negb (String.eqb s EmptyString)
  | JList l => match l with [] => false | _ => true end
  | JObj kvs => match kvs with [] => false | _ => true end
  end.

(** [bool] is a subclass of [int]: [True == 1] and [False == 0]. *)
Definition as_int (v : json) : option Z :=
  match v with
  | JInt z => Some z
  | JBool true => Some 1
  | JBool false => Some 0
  | _ => None
  end.

(** ["%s" % v]. *)
Definition str `{PyRuntime} (v : json) : string :=
  match v with
  | JNull => "None"
  | JBool true => "True"
  | JBool false => "False"
  | JInt z => string_of_Z z
  | JStr s => s
  | _ => py_repr v
  end.

(** ["%d" % v]: a number is required. *)
Definition fmt_d (v : json) : result string :=
  match as_int v with
  | Some z => Ok (string_of_Z z)
  | None => Raise TypeError
  end.

(** [n == v] for an [int] [n]. *)
Definition int_eq (n : Z) (v : json) : bool :=
  match as_int v with
  | Some z => n =? z
  | None => false
  end.

Definition hashable (v : json) : bool :=
  match v with
  | JList _ | JObj _ => false
  | _ => true
  end.

(** [a == b] on hashable values, as a [dict] compares its keys. *)
Definition key_eq (a b : json) : bool :=
  match a, b with
  | JNull, JNull => true
  | JStr s, JStr t => String.eqb s t
  | _, _ =>
      match as_int a, as_int b with
      | Some x, Some y => x =? y
      | _, _ => false
      end
  end.

(** [sep.join(parts)]. *)
Fixpoint join (sep : string) (parts : list string) : string :=
  match parts with
  | [] => EmptyString
  | [p] => p
  | p :: rest => p +:+ sep +:+ join sep rest
  end.

(** [p in s] on strings. *)
Fixpoint str_contains (p s : string) : bool :=
  String.prefix p s ||
  match s with
  | EmptyString => false
  | String _ s' => str_contains p s'
  end.

(** [d.get(k)] on the items of a dict. *)
Fixpoint lookup (k : string) (kvs : list (string * json)) : option json :=
  match kvs with
  | [] => None
  | (k', v) :: rest => if String.eqb k k' then Some v else lookup k rest
  end.

(** [d.get(k, default)]. *)
Definition get (k : string) (kvs : list (string * json)) (default : json) : json :=
  match lookup k kvs with
  | Some v => v
  | None => default
  end.

(** [structure[k]] for a string [k]: only a dict can be indexed by a
    string, and a missing key is a [KeyError]. *)
Definition getitem (structure : json) (k : string) : result json :=
  match structure with
  | JObj kvs =>
      match lookup k kvs with
      | Some v => Ok v
      | None => Raise (KeyError k)
      end
  | _ => Raise TypeError
  end.

(** [for x in v]: a list yields its elements, a dict its keys, a string
    its characters; nothing else that [json.loads] returns is iterable. *)
Definition iter (v : json) : result (list json) :=
  match v with
  | JList l => Ok l
  | JObj kvs => Ok (map (fun kv => JStr (fst kv)) kvs)
  | JStr s => Ok (map (fun c => JStr (String c EmptyString)) (list_ascii_of_string s))
  | _ => Raise TypeError
  end.

(** [k in v] for a string [k]. *)
Definition contains (k : string) (v : json) : result bool :=
  match v with
  | JObj kvs => Ok (match lookup k kvs with Some _ => true | None => false end)
  | JList l => Ok (existsb (key_eq (JStr k)) l)
  | JStr s => Ok (str_contains k s)
  | _ => Raise TypeError
  end.

End Py.

(** A message names a text when the text occurs in it. *)
Definition mentions (msg text : string) : Prop := Py.str_contains text msg = true.

(** ** TrackSpecificationReader: field lookup *)

(** The [path] argument of [_r]: a single key or a list of keys. *)
Inductive path_arg : Type :=
| PStr (k : string)
| PList (ks : list string).

Module Reader.
Section Reader.
Context {RT : PyRuntime}.
(** [self.name], the name of the track being read. *)
Variable name : json.

Definition _error {A} (msg : string) : result A :=
  Raise (TrackSyntaxError ("Track '" +:+ Py.str name +:+ "' is invalid. " +:+ msg)).

Definition path_keys (path : path_arg) : list string :=
  match path with
  | PStr k => [k]
  | PList ks => ks
  end.

(** [for k in path: structure = structure[k]]. *)
Fixpoint walk (structure : json) (path : list string) : result json :=
  match path with
  | [] => Ok structure
  | k :: rest => let* v := Py.getitem structure k in walk v rest
  end.

(** Some component of [path] is absent from the nested mappings of
    [root]. *)
Fixpoint missing (root : json) (path : list string) : bool :=
  match path with
  | [] => false
  | k :: rest =>
      match root with
      | JObj kvs =>
          match Py.lookup k kvs with
          | Some v => missing v rest
          | None => true
          end
      | _ => false
      end
  end.

Definition _r (root : json) (path : path_arg) (error_ctx : json)
    (mandatory : bool) (default_value : json) : result json :=
  let path := path_keys path in
  match walk root path with
  | Raise (KeyError _) =>
      if mandatory then
        if Py.truthy error_ctx then
          _error ("Mandatory element '" +:+ Py.join "." path +:+ "' is missing in '"
                  +:+ Py.str error_ctx +:+ "'.")
        else
          _error ("Mandatory element '" +:+ Py.join "." path +:+ "' is missing.")
      else Ok default_value
  | r => r
  end.

(** ** The track model ([esrally.track.track])

    The constructors of the model classes store their arguments. *)

Record Type_ : Type := mkType {
  type_name : json;
  mapping_file : string;
  document_file : option string;
  document_archive : option string;
  number_of_documents : json;
  compressed_size_in_bytes : json;
  uncompressed_size_in_bytes : json
}.

Record Operation : Type := mkOperation {
  op_name : json;
  op_type : json;
  op_params : json;
  op_param_source : json
}.

Record Task : Type := mkTask {
  operation : Operation;
  warmup_iterations : json;
  warmup_time_period : json;
  iterations : json;
  clients : json;
  target_throughput : json
}.

Record Parallel : Type := mkParallel {
  tasks : list Task;
  parallel_clients : json
}.

(** An element of a challenge's schedule. *)
Inductive schedule_entry : Type :=
| ETask (t : Task)
| EParallel (p : Parallel).

Record Challenge : Type := mkChallenge {
  challenge_name : json;
  challenge_description : json;
  index_settings : json;
  schedule : list schedule_entry
}.

(** The operations table [ops]: a dict from operation name to operation. *)
Definition ops_table : Type := list (json * Operation).

(** [ops[k]] after [k in ops] has been checked. *)
Fixpoint ops_get (k : json) (ops : ops_table) : option Operation :=
  match ops with
  | [] => None
  | (k', o) :: rest => if Py.key_eq k k' then Some o else ops_get k rest
  end.

(** [ops[k] = o]. *)
Fixpoint ops_set (k : json) (o : Operation) (ops : ops_table) : ops_table :=
  match ops with
  | [] => [(k, o)]
  | (k', o') :: rest =>
      if Py.key_eq k k' then (k', o) :: rest else (k', o') :: ops_set k o rest
  end.

(** What the loader uses from [esrally.utils.io] and from
    [esrally.track.track], whose code is not part of this file. *)
Class TrackModule := {
  (** [io.splitext] and [io.dirname]. *)
  io_splitext : json -> result (string * string);
  io_dirname : string -> string;
  (** The member names of [track.OperationType]. *)
  builtin_kinds : list string;
  (** [track.OperationType.from_hyphenated_string] on a value that is not
      a string. *)
  from_hyphenated_other : json -> result string;
  (** [Some msg] when [track.Operation(...)] raises [InvalidSyntax(msg)]. *)
  operation_invalid : json -> json -> json -> json -> option string
}.

Definition lower_ascii (c : ascii) : ascii :=
  let n := nat_of_ascii c in
  if (Nat.leb 65 n && Nat.leb n 90)%bool then ascii_of_nat (n + 32) else c.

(** Lower case, hyphens dropped. *)
Fixpoint normalize (s : string) : string :=
  match s with
  | EmptyString => EmptyString
  | String c s' =>
      if Ascii.eqb c "-"%char then normalize s'
      else String (lower_ascii c) (normalize s')
  end.

(** Modelled from the spec: [track.OperationType.from_hyphenated_string]
    followed by [.name]; the class [OperationType] is not in this file.
    The type string is matched case/hyphen-insensitively against the
    closed enumeration of built-in kinds; a string that matches none
    raises [KeyError]. *)
Definition from_hyphenated_string {TM : TrackModule} (v : json) : result string :=
  match v with
  | JStr s =>
      match find (fun k => String.eqb (normalize k) (normalize s)) builtin_kinds with
      | Some k => Ok k
      | None => Raise (KeyError s)
      end
  | _ => from_hyphenated_other v
  end.

Context {TM : TrackModule}.

(** ** TrackSpecificationReader: building the model *)

Definition _create_type (type_spec : json) (mapping_dir data_dir : string)
    : result Type_ :=
  let* compressed_docs := _r type_spec (PStr "documents") JNull false JNull in
  let* paths :=
    (if Py.truthy compressed_docs then
       let document_archive := data_dir +:+ "/" +:+ Py.str compressed_docs in
       let* parts := io_splitext compressed_docs in
       let document_file := data_dir +:+ "/" +:+ fst parts in
       Ok (Some document_file, Some document_archive)
     else Ok (None, None)) in
  let* n := _r type_spec (PStr "name") JNull true JNull in
  let* mapping := _r type_spec (PStr "mapping") JNull true JNull in
  let* count := _r type_spec (PStr "document-count") JNull false (JInt 0) in
  let* compressed := _r type_spec (PStr "compressed-bytes") JNull false JNull in
  let* uncompressed := _r type_spec (PStr "uncompressed-bytes") JNull false JNull in
  Ok {| type_name := n;
        mapping_file := mapping_dir +:+ "/" +:+ Py.str mapping;
        document_file := fst paths;
        document_archive := snd paths;
        number_of_documents := count;
        compressed_size_in_bytes := compressed;
        uncompressed_size_in_bytes := uncompressed |}.

(** The body of the loop of [parse_operations]. *)
Definition parse_operation (ops : ops_table) (op_spec : json) : result ops_table :=
  let* op_name := _r op_spec (PStr "name") (JStr "operations") true JNull in
  let* op_type_name := _r op_spec (PStr "operation-type") (JStr "operations") true JNull in
  let* op_type :=
    match from_hyphenated_string op_type_name with
    | Ok k => Ok (JStr k)
    | Raise (KeyError _) => Ok op_type_name
    | Raise e => Raise e
    end in
  let* param_source := _r op_spec (PStr "param-source") (JStr "operations") false JNull in
  match operation_invalid op_name op_type op_spec param_source with
  | Some e =>
      Raise (TrackSyntaxError ("Invalid operation [" +:+ Py.str op_name +:+ "]: " +:+ e))
  | None =>
      if Py.hashable op_name then
        Ok (ops_set op_name (mkOperation op_name op_type op_spec param_source) ops)
      else Raise TypeError
  end.

Fixpoint parse_operations_from (ops : ops_table) (op_specs : list json)
    : result ops_table :=
  match op_specs with
  | [] => Ok ops
  | op_spec :: rest =>
      let* ops' := parse_operation ops op_spec in
      parse_operations_from ops' rest
  end.

Definition parse_operations (ops_specs : json) : result ops_table :=
  let* op_specs := Py.iter ops_specs in
  parse_operations_from [] op_specs.

Definition parse_task (task_spec : json) (ops : ops_table) (challenge_name : json)
    (default_warmup_iterations default_iterations : json) : result Task :=
  let* op_name := Py.getitem task_spec "operation" in
  if negb (Py.hashable op_name) then Raise TypeError
  else
    match ops_get op_name ops with
    | None =>
        _error ("'schedule' for challenge '" +:+ Py.str challenge_name
                +:+ "' contains a non-existing operation '" +:+ Py.str op_name
                +:+ "'. Please add an operation '" +:+ Py.str op_name
                +:+ "' to the 'operations' block.")
    | Some op =>
        let* wi := _r task_spec (PStr "warmup-iterations") op_name false
                    default_warmup_iterations in
        let* wtp := _r task_spec (PStr "warmup-time-period") op_name false JNull in
        let* it := _r task_spec (PStr "iterations") op_name false default_iterations in
        let* cl := _r task_spec (PStr "clients") op_name false (JInt 1) in
        let* tt := _r task_spec (PStr "target-throughput") op_name false JNull in
        Ok (mkTask op wi wtp it cl tt)
    end.

(** [parse_task] with its declared defaults, as a top-level schedule
    entry calls it. *)
Definition parse_task_top (task_spec : json) (ops : ops_table) (challenge_name : json)
    : result Task :=
  parse_task task_spec ops challenge_name (JInt 0) (JInt 1).

Definition parse_parallel (ops_spec : json) (ops : ops_table) (challenge_name : json)
    : result Parallel :=
  let* default_warmup_iterations :=
    _r ops_spec (PStr "warmup-iterations") (JStr "parallel") false JNull in
  let* default_iterations := _r ops_spec (PStr "iterations") (JStr "parallel") false JNull in
  let* clients := _r ops_spec (PStr "clients") (JStr "parallel") false JNull in
  let* tasks_spec := _r ops_spec (PStr "tasks") (JStr "parallel") true JNull in
  let* task_specs := Py.iter tasks_spec in
  let* tasks := rmap (fun task =>
                        parse_task task ops challenge_name
                          default_warmup_iterations default_iterations) task_specs in
  Ok (mkParallel tasks clients).

(** The body of the schedule loop of [_create_challenges]. *)
Definition parse_schedule_entry (op : json) (ops : ops_table) (challenge_name : json)
    : result schedule_entry :=
  let* is_parallel := Py.contains "parallel" op in
  if is_parallel : bool then
    let* block := Py.getitem op "parallel" in
    let* p := parse_parallel block ops challenge_name in
    Ok (EParallel p)
  else
    let* t := parse_task_top op ops challenge_name in
    Ok (ETask t).

Definition parse_challenge (ops : ops_table) (challenge : json) : result Challenge :=
  let* challenge_name := _r challenge (PStr "name") (JStr "challenges") true JNull in
  let* challenge_description := _r challenge (PStr "description") challenge_name true JNull in
  let* index_settings := _r challenge (PStr "index-settings") challenge_name false JNull in
  let* schedule_spec := _r challenge (PStr "schedule") challenge_name true JNull in
  let* entries := Py.iter schedule_spec in
  let* schedule := rmap (fun op => parse_schedule_entry op ops challenge_name) entries in
  Ok (mkChallenge challenge_name challenge_description index_settings schedule).

Definition _create_challenges (track_spec : json) : result (list Challenge) :=
  let* ops_specs := _r track_spec (PStr "operations") JNull true JNull in
  let* ops := parse_operations ops_specs in
  let* challenges_spec := _r track_spec (PStr "challenges") JNull true JNull in
  let* challenges := Py.iter challenges_spec in
  rmap (parse_challenge ops) challenges.

End Reader.
End Reader.

(** ** Code with effects *)

(** The calls the loader makes to its collaborators, in the order made. *)
Inductive event : Type :=
| LogInfo (msg : string)
| LogWarn (msg : string)
| LogException (msg : string)
| ConsoleInfo (msg : string)
| ConsolePrintln (msg : string)
| ConsoleWarn (msg : string)
| EnsureDir (dir : string)
| NetDownload (url local_path : string) (size_in_bytes : json)
| IoDecompress (archive dir : string)
| PrepareFileOffsetTable (path : string)
| GitCheckout (branch : string)
| GitRebase (branch : string).

(** How a computation over a world [W] ends: with a value or with an
    exception, and in either case with the world it leaves behind. *)
Inductive outcome (W A : Type) : Type :=
| Done (a : A) (w : W)
| Fail (e : exn) (w : W).
Arguments Done {W A} a w.
Arguments Fail {W A} e w.

(** The events that move data: a download or a decompression. *)
Definition is_transfer (e : event) : bool :=
  match e with
  | NetDownload _ _ _ | IoDecompress _ _ => true
  | _ => false
  end.

Definition is_decompression (e : event) : bool :=
  match e with
  | IoDecompress _ _ => true
  | _ => false
  end.

(** The world a computation leaves behind. *)
Definition outcome_world {W A} (o : outcome W A) : W :=
  match o with
  | Done _ w => w
  | Fail _ w => w
  end.

Definition M (W A : Type) : Type := W -> list event * outcome W A.

Definition mret {W A} (a : A) : M W A := fun w => ([], Done a w).

Definition mraise {W A} (e : exn) : M W A := fun w => ([], Fail e w).

Definition mbind' {W A B} (m : M W A) (k : A -> M W B) : M W B :=
  fun w =>
    match m w with
    | (t, Done a w') => let (t', o) := k a w' in (t ++ t', o)
    | (t, Fail e w') => (t, Fail e w')
    end.

Notation "'do*' x ':=' m 'in' k" := (mbind' m (fun x => k))
  (at level 10, x name, m at level 100, k at level 200).
Notation "m '>>' k" := (mbind' m (fun _ => k))
  (at level 100, k at level 200, right associativity).

Definition emit {W} (e : event) : M W unit := fun w => ([e], Done tt w).

(** A call to a collaborator that changes the world. *)
Definition call {W A} (f : W -> outcome W A) : M W A := fun w => ([], f w).

(** A value computed by code that can raise. *)
Definition lift {W A} (r : result A) : M W A :=
  match r with
  | Ok a => mret a
  | Raise e => mraise e
  end.

Definition ask {W A} (f : W -> A) : M W A := fun w => ([], Done (f w) w).

(** [try: body except E: handler], where [handles] tells the exceptions
    of class [E]. *)
Definition try_except {W A} (handles : exn -> bool) (body handler : M W A) : M W A :=
  fun w =>
    match body w with
    | (t, Fail e w') =>
        if handles e then let (t', o) := handler w' in (t ++ t', o)
        else (t, Fail e w')
    | r => r
    end.

Definition is_URLError (e : exn) : bool :=
  match e with URLError => true | _ => false end.

Definition is_SupplyError (e : exn) : bool :=
  match e with SupplyError => true | _ => false end.

(** [for x in xs: body(x)]. *)
Fixpoint mfor {W A} (xs : list A) (body : A -> M W unit) : M W unit :=
  match xs with
  | [] => mret tt
  | x :: rest => body x >> mfor rest body
  end.

(** ** prepare_track: the asset stager *)

(** [os.path.basename] and [os.path.dirname] (POSIX). *)
Module OsPath.

Fixpoint has_slash (s : string) : bool :=
  match s with
  | EmptyString => false
  | String c s' => Ascii.eqb c "/"%char || has_slash s'
  end.

Fixpoint basename (p : string) : string :=
  match p with
  | EmptyString => EmptyString
  | String c p' =>
      if has_slash p' then basename p'
      else if Ascii.eqb c "/"%char then p' else p
  end.

(** [p[:p.rfind('/') + 1]]. *)
Fixpoint head (p : string) : string :=
  match p with
  | EmptyString => EmptyString
  | String c p' => if has_slash p then String c (head p') else EmptyString
  end.

Fixpoint all_slashes (s : string) : bool :=
  match s with
  | EmptyString => true
  | String c s' => Ascii.eqb c "/"%char && all_slashes s'
  end.

(** [s.rstrip('/')]. *)
Fixpoint rstrip_slash (s : string) : string :=
  match s with
  | EmptyString => EmptyString
  | String c s' => if all_slashes s then EmptyString else String c (rstrip_slash s')
  end.

Definition dirname (p : string) : string :=
  let h := head p in
  if all_slashes h then h else rstrip_slash h.

End OsPath.

Record Index : Type := mkIndex {
  index_name : json;
  types : list Reader.Type_
}.

Record Track : Type := mkTrack {
  track_name : json;
  short_description : json;
  description : json;
  source_root_url : json;
  challenges : list Reader.Challenge;
  indices : list Index
}.

(** The file system and the network, with what the stager uses from
    [esrally.utils] ([io], [net], [convert]). *)
Class StagerIO (World : Type) := {
  (** The size of the regular file at a path, [None] when there is none:
      [os.path.isfile] and [os.path.getsize]. *)
  file_size : World -> string -> option Z;
  io_ensure_dir : string -> World -> outcome World unit;
  (** What [%s] prints for [round(convert.bytes_to_mb(size))]. *)
  size_in_mb : json -> result string;
  (** What [%.2f] prints for [convert.bytes_to_gb(size)]. *)
  size_in_gb : json -> result string;
  net_download : string -> string -> json -> World -> outcome World unit;
  io_decompress : string -> string -> World -> outcome World unit;
  io_prepare_file_offset_table : string -> World -> outcome World unit
}.

Module Stager.
Section Stager.
Context {RT : PyRuntime} {TM : Reader.TrackModule} {World : Type} {IO : StagerIO World}.
Import Reader.

Definition isfile (local_path : string) : M World bool :=
  ask (fun w => match file_size w local_path with Some _ => true | None => false end).

(** [os.path.getsize] raises [OSError] when the file does not exist. *)
Definition getsize (local_path : string) : M World Z :=
  fun w => match file_size w local_path with
           | Some n => ([], Done n w)
           | None => ([], Fail OSError w)
           end.

(** [os.path.isfile(p) and os.path.getsize(p) == size]. *)
Definition exists_with_size (p : string) (size : json) : M World bool :=
  do* file_exists := isfile p in
  if file_exists : bool then
    do* n := getsize p in mret (Py.int_eq n size)
  else mret false.

(** The [try] block of [download]. *)
Definition attempt_download (url local_path : string) (size_in_bytes : json)
    : M World unit :=
  try_except is_URLError
    (emit (EnsureDir (OsPath.dirname local_path)) >>
     call (io_ensure_dir (OsPath.dirname local_path)) >>
     do* mb := lift (size_in_mb size_in_bytes) in
     emit (ConsoleInfo ("Downloading data from [" +:+ url +:+ "] (" +:+ mb +:+ " MB) to ["
                        +:+ local_path +:+ "] ... ")) >>
     emit (NetDownload url local_path size_in_bytes) >>
     call (net_download url local_path size_in_bytes) >>
     emit (ConsolePrintln "[OK]"))
    (emit (LogException ("Could not download [" +:+ url +:+ "] to [" +:+ local_path
                         +:+ "]."))).

(** The last two checks of [download]: the file must exist and have the
    expected size. *)
Definition verify_download (offline : bool) (url local_path : string)
    (size_in_bytes : json) : M World bool :=
  do* file_exists := isfile local_path in
  if negb file_exists then
    if offline then
      mraise (SystemSetupError
                ("Cannot find " +:+ local_path
                 +:+ ". Please disable offline mode and retry again."))
    else
      mraise (SystemSetupError
                ("Cannot download from " +:+ url +:+ " to " +:+ local_path
                 +:+ ". Please verify that data are available at " +:+ url
                 +:+ " and check your internet connection."))
  else
    do* actual_size := getsize local_path in
    if negb (Py.int_eq actual_size size_in_bytes) then
      do* expected := lift (Py.fmt_d size_in_bytes) in
      mraise (DataError
                ("[" +:+ local_path +:+ "] is corrupt. Downloaded ["
                 +:+ Py.string_of_Z actual_size +:+ "] bytes but [" +:+ expected
                 +:+ "] bytes are expected."))
    else mret true.

(** The download step: nothing when the archive is already there with
    the expected size or when offline, an attempt otherwise.  It tells
    whether the download was skipped for the first reason, in which case
    [download] returns at once. *)
Definition download_step (offline : bool) (url local_path : string)
    (size_in_bytes : json) : M World bool :=
  do* present := exists_with_size local_path size_in_bytes in
  if present : bool then
    emit (LogInfo ("[" +:+ local_path +:+ "] already exists locally. Skipping download.")) >>
    mret true
  else
    (if negb offline then attempt_download url local_path size_in_bytes else mret tt) >>
    mret false.

Definition download (offline : bool) (url local_path : string) (size_in_bytes : json)
    : M World bool :=
  do* skipped := download_step offline url local_path size_in_bytes in
  if skipped : bool then mret false
  else verify_download offline url local_path size_in_bytes.

(** [type_uncompressed] is [type.uncompressed_size_in_bytes] of the
    enclosing loop, which the progress message prints. *)
Definition decompress (type_uncompressed : json) (data_set_path : string)
    (expected_size_in_bytes : json) : M World (string * bool) :=
  do* parts := lift (io_splitext (JStr data_set_path)) in
  let basename := fst parts in
  do* present := exists_with_size basename expected_size_in_bytes in
  if negb present then
    do* gb := lift (size_in_gb type_uncompressed) in
    emit (ConsoleInfo ("Decompressing track data from [" +:+ data_set_path +:+ "] to ["
                       +:+ basename +:+ "] (resulting size: " +:+ gb +:+ " GB) ... ")) >>
    emit (IoDecompress data_set_path (io_dirname data_set_path)) >>
    call (io_decompress data_set_path (io_dirname data_set_path)) >>
    emit (ConsolePrintln "[OK]") >>
    do* extracted_bytes := getsize basename in
    if negb (Py.int_eq extracted_bytes expected_size_in_bytes) then
      do* expected := lift (Py.fmt_d expected_size_in_bytes) in
      mraise (DataError
                ("[" +:+ basename +:+ "] is corrupt. Extracted ["
                 +:+ Py.string_of_Z extracted_bytes +:+ "] bytes but [" +:+ expected
                 +:+ "] bytes are expected."))
    else mret (basename, true)
  else mret (basename, false).

(** ["%s/%s" % (track.source_root_url, os.path.basename(archive))]. *)
Definition data_url (root_url : json) (archive : string) : string :=
  Py.str root_url +:+ "/" +:+ OsPath.basename archive.

(** The body of the inner loop of [prepare_track]. *)
Definition stage_type (offline : bool) (root_url : json) (type : Type_) : M World unit :=
  match document_archive type with
  | Some archive =>
      if negb (String.eqb archive EmptyString) then
        download offline (data_url root_url archive) archive
          (compressed_size_in_bytes type) >>
        do* r := decompress (uncompressed_size_in_bytes type) archive
                   (uncompressed_size_in_bytes type) in
        emit (PrepareFileOffsetTable (fst r)) >>
        call (io_prepare_file_offset_table (fst r))
      else mret tt
  | None => mret tt
  end.

Definition prepare_track (track : Track) (offline : bool) : M World unit :=
  mfor (indices track) (fun index =>
    mfor (types index) (fun type => stage_type offline (source_root_url track) type)).

(** The data of a document group are staged in a world: its archive and
    its decompressed file are there with the expected sizes.  [keep]
    tells the paths of the data files. *)
Definition staged (keep : string -> Prop) (w : World) (type : Type_) : Prop :=
  match document_archive type with
  | Some archive =>
      archive <> EmptyString ->
      exists basename extension a u,
        io_splitext (JStr archive) = Ok (basename, extension)
        /\ keep archive /\ keep basename
        /\ file_size w archive = Some a
        /\ Py.int_eq a (compressed_size_in_bytes type) = true
        /\ file_size w basename = Some u
        /\ Py.int_eq u (uncompressed_size_in_bytes type) = true
  | None => True
  end.

End Stager.
End Stager.

(** ** TrackRepository *)

(** The git working copy, with what the repository uses from
    [esrally.utils] ([git], [versions]). *)
Class GitIO (World : Type) := {
  (** [git.branches(src, remote=...)]. *)
  git_branches : string -> bool -> World -> outcome World (list string);
  (** [versions.best_match]: a branch name or [None]. *)
  versions_best_match : list string -> json -> option string;
  git_checkout : string -> string -> World -> outcome World unit;
  git_rebase : string -> string -> World -> outcome World unit
}.

Module Repository.
Section Repository.
Context {RT : PyRuntime} {World : Type} {GIT : GitIO World}.

(** The fields of a [TrackRepository] that [_update] reads. *)
Record TrackRepository : Type := mkTrackRepository {
  tracks_dir : string;
  remote : bool;
  offline : bool
}.

(** [if branch:] on the result of [versions.best_match]. *)
Definition found (branch : option string) : option string :=
  match branch with
  | Some b => if String.eqb b EmptyString then None else Some b
  | None => None
  end.

Definition checking_out (self : TrackRepository) (branch : string) (version : json)
    : string :=
  "Checking out [" +:+ branch +:+ "] in [" +:+ tracks_dir self
  +:+ "] for distribution version [" +:+ Py.str version +:+ "].".

Definition fallback_notice (version : json) : string :=
  "Could not find track data remotely for distribution version [" +:+ Py.str version
  +:+ "]. Trying to find track data locally.".

(** The local search that ends [_update]. *)
Definition update_local (self : TrackRepository) (distribution_version : json)
    : M World unit :=
  do* branches := call (git_branches (tracks_dir self) false) in
  match found (versions_best_match branches distribution_version) with
  | Some branch =>
      emit (LogInfo (checking_out self branch distribution_version)) >>
      emit (GitCheckout branch) >>
      call (git_checkout (tracks_dir self) branch)
  | None =>
      mraise (SystemSetupError
                ("Cannot find track data for distribution version "
                 +:+ Py.str distribution_version))
  end.

(** The body of the [try] of [_update]. *)
Definition update_body (self : TrackRepository) (distribution_version : json)
    : M World unit :=
  if (remote self && negb (offline self))%bool then
    do* branches := call (git_branches (tracks_dir self) (remote self)) in
    match found (versions_best_match branches distribution_version) with
    | Some branch =>
        emit (LogInfo (checking_out self branch distribution_version)) >>
        emit (GitCheckout branch) >>
        call (git_checkout (tracks_dir self) branch) >>
        emit (LogInfo ("Rebasing on [" +:+ branch +:+ "] in [" +:+ tracks_dir self
                       +:+ "] for distribution version ["
                       +:+ Py.str distribution_version +:+ "].")) >>
        try_except is_SupplyError
          (emit (GitRebase branch) >>
           call (git_rebase (tracks_dir self) branch))
          (emit (LogException ("Cannot rebase due to local changes in ["
                               +:+ tracks_dir self +:+ "]")) >>
           emit (ConsoleWarn ("Local changes in [" +:+ tracks_dir self
                              +:+ "] prevent track update from remote. "
                              +:+ "Please commit your changes.")))
    | None =>
        emit (LogWarn (fallback_notice distribution_version)) >>
        update_local self distribution_version
    end
  else update_local self distribution_version.

Definition _update (self : TrackRepository) (distribution_version : json)
    : M World unit :=
  try_except is_SupplyError
    (update_body self distribution_version)
    (mraise (DataError ("Cannot update track data in [" +:+ tracks_dir self +:+ "]."))).

End Repository.
End Repository.

(** ** More of the loader *)

(** A component of [path] is looked up in a value of [root] that is not a
    mapping. *)
Fixpoint non_mapping (root : json) (path : list string) : bool :=
  match path with
  | [] => false
  | k :: rest =>
      match root with
      | JObj kvs =>
          match Py.lookup k kvs with
          | Some v => non_mapping v rest
          | None => false
          end
      | _ => true
      end
  end.

Definition is_download (e : event) : bool :=
  match e with
  | NetDownload _ _ _ => true
  | _ => false
  end.

Definition is_offset_table (e : event) : bool :=
  match e with
  | PrepareFileOffsetTable _ => true
  | _ => false
  end.


(** *** TrackSpecificationReader: indices and the whole track *)

(** [track.Type.has_valid_document_data], whose code is not part of this
    file. *)
Class DocumentData := { has_valid_document_data : Reader.Type_ -> bool }.

Module Specification.
Section Specification.
Context {RT : PyRuntime} {TM : Reader.TrackModule} {DD : DocumentData}.
Import Reader.
(** [self.name]. *)
Variable name : json.

(** The loop of [_create_index] that looks for a type with document data
    and stops at the first one. *)
Fixpoint any_valid_document_data (types : list Type_) : bool :=
  match types with
  | [] => false
  | type :: rest =>
      if has_valid_document_data type then true else any_valid_document_data rest
  end.

Definition no_documents_warning (index_name : json) : string :=
  "None of the types for index [" +:+ Py.str index_name
  +:+ "] defines documents. Please check that you either don't want to index data or "
  +:+ "parameter sources are defined for indexing.".

(** The warnings printed on the console, and the index or the exception. *)
Definition _create_index (index_spec : json) (mapping_dir data_dir : string)
    : list event * result Index :=
  match (let* index_name := _r name index_spec (PStr "name") JNull true JNull in
         let* types_spec := _r name index_spec (PStr "types") JNull true JNull in
         let* type_specs := Py.iter types_spec in
         let* types := rmap (fun type_spec =>
                               _create_type name type_spec mapping_dir data_dir)
                            type_specs in
         Ok (index_name, types)) with
  | Ok (index_name, types) =>
      (if any_valid_document_data types then []
       else [ConsoleWarn (no_documents_warning index_name)],
       Ok (mkIndex index_name types))
  | Raise e => ([], Raise e)
  end.

(** [[self._create_index(idx, ...) for idx in index_specs]]. *)
Fixpoint create_indices (index_specs : list json) (mapping_dir data_dir : string)
    : list event * result (list Index) :=
  match index_specs with
  | [] => ([], Ok [])
  | idx :: rest =>
      match _create_index idx mapping_dir data_dir with
      | (warnings, Ok index) =>
          match create_indices rest mapping_dir data_dir with
          | (warnings', Ok indices) => (warnings ++ warnings', Ok (index :: indices))
          | (warnings', Raise e) => (warnings ++ warnings', Raise e)
          end
      | (warnings, Raise e) => (warnings, Raise e)
      end
  end.

(** [TrackSpecificationReader.__call__], with [track_name] already stored
    in [self.name]. *)
Definition __call__ (track_specification : json) (mapping_dir data_dir : string)
    : list event * result Track :=
  match (let* short_description :=
           _r name track_specification (PList ["meta"; "short-description"])
              JNull true JNull in
         let* description :=
           _r name track_specification (PList ["meta"; "description"]) JNull true JNull in
         let* source_root_url :=
           _r name track_specification (PList ["meta"; "data-url"]) JNull true JNull in
         let* indices_spec := _r name track_specification (PStr "indices") JNull true JNull in
         let* index_specs := Py.iter indices_spec in
         Ok (short_description, description, source_root_url, index_specs)) with
  | Ok (short_description, description, source_root_url, index_specs) =>
      match create_indices index_specs mapping_dir data_dir with
      | (warnings, Ok indices) =>
          match _create_challenges name track_specification with
          | Ok challenges =>
              (warnings,
               Ok (mkTrack name short_description description source_root_url
                     challenges indices))
          | Raise e => (warnings, Raise e)
          end
      | (warnings, Raise e) => (warnings, Raise e)
      end
  | Raise e => ([], Raise e)
  end.

End Specification.
End Specification.

(** *** TrackRepository: construction, paths and track names *)

(** What the constructor and [track_names] use from [git] and [os]. *)
Class WorkingCopyIO (World : Type) := {
  git_is_working_copy : string -> World -> bool;
  git_clone : string -> string -> World -> outcome World unit;
  git_fetch : string -> World -> outcome World unit;
  (** [next(os.walk(d))[1]]: the names of the directories in [d]; [None]
      when [os.walk] yields nothing. *)
  os_walk_dirs : string -> World -> option (list string)
}.


Module RepositoryFiles.
Section RepositoryFiles.
Context {RT : PyRuntime} {World : Type} {GIT : GitIO World} {WC : WorkingCopyIO World}.
Import Repository.






Definition track_dir (self : TrackRepository) (track_name : string) : string :=
  tracks_dir self +:+ "/" +:+ track_name.

Definition track_file (self : TrackRepository) (distribution_version : json)
    (track_name : string) : M World string :=
  _update self distribution_version >>
  mret (track_dir self track_name +:+ "/track.json").

(** [plugin_file] does not update the working copy. *)
Definition plugin_file (self : TrackRepository) (distribution_version : json)
    (track_name : string) : string :=
  track_dir self track_name +:+ "/track.py".

(** [not d.startswith(".")]. *)
Definition visible (d : string) : bool := negb (String.prefix "." d).

Definition track_names (self : TrackRepository) (distribution_version : json)
    : M World (list string) :=
  _update self distribution_version >>
  fun w =>
    match os_walk_dirs (tracks_dir self) w with
    | Some dirs => ([], Done (List.filter visible dirs) w)
    | None => ([], Fail (OtherError "StopIteration") w)
    end.

End RepositoryFiles.
End RepositoryFiles.

(** ** A small instance of the collaborators

    The model is parametric in what lies outside [loader.py].  This module
    gives one concrete choice, on which the embedded functions compute: the
    [repr] of ASCII data, an [OperationType] with five members, a file
    system that is a finite map from paths to sizes, a server that delivers
    a file of a given size per URL, and a git working copy with its lists
    of branches. *)
Module Sample.

Definition dquote : ascii := ascii_of_nat 34.
Definition squote : ascii := ascii_of_nat 39.
Definition backslash : ascii := ascii_of_nat 92.

Fixpoint has_char (c : ascii) (s : string) : bool :=
  match s with
  | EmptyString => false
  | String d s' => Ascii.eqb c d || has_char c s'
  end.

Fixpoint escape (quote : ascii) (s : string) : string :=
  match s with
  | EmptyString => EmptyString
  | String c s' =>
      if Ascii.eqb c backslash || Ascii.eqb c quote
      then String backslash (String c (escape quote s'))
      else if Ascii.eqb c (ascii_of_nat 10) then String backslash (String "n" (escape quote s'))
      else if Ascii.eqb c (ascii_of_nat 13) then String backslash (String "r" (escape quote s'))
      else if Ascii.eqb c (ascii_of_nat 9) then String backslash (String "t" (escape quote s'))
      else String c (escape quote s')
  end.

Definition repr_string (s : string) : string :=
  let quote := if has_char squote s && negb (has_char dquote s) then dquote else squote in
  String quote (escape quote s) +:+ String quote EmptyString.

Fixpoint repr (v : json) : string :=
  match v with
  | JNull => "None"
  | JBool true => "True"
  | JBool false => "False"
  | JInt z => Py.string_of_Z z
  | JStr s => repr_string s
  | JList l => "[" +:+ Py.join ", " (map repr l) +:+ "]"
  | JObj kvs =>
      "{" +:+ Py.join ", " (map (fun kv => let (k, x) := kv : string * json in
                                          repr_string k +:+ ": " +:+ repr x) kvs) +:+ "}"
  end.

#[export] Instance runtime : PyRuntime := {| py_repr := repr |}.

Fixpoint has_dot (s : string) : bool :=
  match s with
  | EmptyString => false
  | String c s' => Ascii.eqb c "."%char || has_dot s'
  end.

(** The file name up to its last dot, and the rest. *)
Fixpoint split_last_dot (s : string) : string * string :=
  match s with
  | EmptyString => (EmptyString, EmptyString)
  | String c s' =>
      if has_dot s' then let (b, e) := split_last_dot s' in (String c b, e)
      else if Ascii.eqb c "."%char then (EmptyString, s) else (s, EmptyString)
  end.

#[export] Instance track_module : Reader.TrackModule := {|
  Reader.io_splitext v :=
    match v with
    | JStr s => Ok (split_last_dot s)
    | _ => Raise TypeError
    end;
  Reader.io_dirname := OsPath.dirname;
  Reader.builtin_kinds := ["Index"; "ForceMerge"; "IndexStats"; "NodesStats"; "Search"];
  Reader.from_hyphenated_other _ := Raise (OtherError "AttributeError");
  Reader.operation_invalid _ _ _ _ := None
|}.

(** Files with their sizes, what the server delivers per URL, and what an
    archive inflates to. *)
Record world : Type := mkWorld {
  files : gmap string Z;
  served : gmap string Z;
  inflated : gmap string Z
}.

Definition write (path : string) (size : Z) (w : world) : world :=
  mkWorld (<[path := size]> (files w)) (served w) (inflated w).

#[export] Instance stager_io : StagerIO world := {|
  file_size w path := files w !! path;
  io_ensure_dir _ w := Done tt w;
  size_in_mb v :=
    match Py.as_int v with
    | Some z => Ok (Py.string_of_Z ((z + 524288) / 1048576))
    | None => Raise TypeError
    end;
  size_in_gb v :=
    match Py.as_int v with
    | Some z => Ok (Py.string_of_Z (z / 1073741824) +:+ ".00")
    | None => Raise TypeError
    end;
  net_download url local_path _ w :=
    match served w !! url with
    | Some n => Done tt (write local_path n w)
    | None => Fail URLError w
    end;
  io_decompress archive _ w :=
    match inflated w !! archive with
    | Some n => Done tt (write (fst (split_last_dot archive)) n w)
    | None => Fail (OtherError "decompress") w
    end;
  io_prepare_file_offset_table path w := Done tt (write (path +:+ ".offset") 0 w)
|}.

(** The branches of the working copy and the branch checked out. *)
Record checkout_state : Type := mkCheckout {
  remote_branches : list string;
  local_branches : list string;
  current : option string
}.

#[export] Instance git_io : GitIO checkout_state := {|
  git_branches _ remote w :=
    Done (if remote then remote_branches w else local_branches w) w;
  versions_best_match branches version :=
    match version with
    | JStr v => find (String.eqb v) branches
    | _ => find (String.eqb "master") branches
    end;
  git_checkout _ branch w :=
    Done tt (mkCheckout (remote_branches w) (local_branches w) (Some branch));
  git_rebase _ _ w := Done tt w
|}.

(** *** Inputs *)

(** The operations of a track, and the table [parse_operations] builds
    for it. *)
Definition sample_operations : json :=
  JList [JObj [("name", JStr "index-append"); ("operation-type", JStr "index")];
         JObj [("name", JStr "merge"); ("operation-type", JStr "Force-Merge")];
         JObj [("name", JStr "percolate"); ("operation-type", JStr "percolator-query")]].

Definition sample_ops : Reader.ops_table :=
  match Reader.parse_operations (JStr "geonames") sample_operations with
  | Ok ops => ops
  | Raise _ => []
  end.

Definition index_append : Reader.Operation :=
  Reader.mkOperation (JStr "index-append") (JStr "Index")
    (JObj [("name", JStr "index-append"); ("operation-type", JStr "index")]) JNull.

(** The document group of the geonames track and the places its data are
    kept. *)
Definition documents : Reader.Type_ :=
  Reader.mkType (JStr "docs") "tracks/geonames/mappings.json"
    (Some "data/geonames/documents.json") (Some "data/geonames/documents.json.bz2")
    (JInt 8000) (JInt 100) (JInt 2500).

Definition geonames_url : json := JStr "http://benchmarks.example.org/geonames".

(** Both files in place with the expected sizes. *)
Definition staged_world : world :=
  mkWorld (<["data/geonames/documents.json.bz2" := 100]>
             (<["data/geonames/documents.json" := 2500]> ∅)) ∅ ∅.

(** Nothing local, and a server that delivers 90 bytes. *)
Definition truncating_world : world :=
  mkWorld ∅ (<["http://benchmarks.example.org/geonames/documents.json.bz2" := 90]> ∅) ∅.

(** Nothing local, and no server. *)
Definition empty_world : world := mkWorld ∅ ∅ ∅.

(** A repository with a remote whose branches do not cover version 5, and
    a local branch that does. *)
Definition geonames_repository : Repository.TrackRepository :=
  Repository.mkTrackRepository "benchmarks/tracks/default" true false.

Definition local_only : checkout_state := mkCheckout ["1"; "2"] ["2"; "5"] (Some "2").

Definition no_match : checkout_state := mkCheckout ["1"; "2"] ["2"] (Some "2").

(** A type has document data when it has a document file and a positive
    number of documents. *)
#[export] Instance document_data : DocumentData := {|
  has_valid_document_data type :=
    match Reader.document_file type, Py.as_int (Reader.number_of_documents type) with
    | Some _, Some n => 0 <? n
    | _, _ => false
    end
|}.

(** A directory that may hold a working copy, with its sub-directories,
    the branches known remotely and locally, and what git refuses to do in
    it. *)
Record directory : Type := mkDirectory {
  is_working_copy : bool;
  sub_directories : list string;
  known_remotely : list string;
  known_locally : list string;
  checked_out : option string;
  refuses_checkout : bool;
  refuses_rebase : bool
}.

#[export] Instance directory_git : GitIO directory := {|
  git_branches _ remote w := Done (if remote then known_remotely w else known_locally w) w;
  versions_best_match branches version :=
    match version with
    | JStr v => find (String.eqb v) branches
    | _ => find (String.eqb "master") branches
    end;
  git_checkout _ branch w :=
    if refuses_checkout w then Fail SupplyError w
    else Done tt (mkDirectory (is_working_copy w) (sub_directories w) (known_remotely w)
                    (known_locally w) (Some branch) false (refuses_rebase w));
  git_rebase _ _ w := if refuses_rebase w then Fail SupplyError w else Done tt w
|}.

#[export] Instance directory_working_copy : WorkingCopyIO directory := {|
  git_is_working_copy _ w := is_working_copy w;
  git_clone _ _ w :=
    Done tt (mkDirectory true (sub_directories w) (known_remotely w) (known_remotely w)
               (checked_out w) (refuses_checkout w) (refuses_rebase w));
  git_fetch _ w := Done tt w;
  os_walk_dirs _ w := Some (sub_directories w)
|}.

Definition default_tracks : directory :=
  mkDirectory true [".git"; "geonames"; ".idea"; "logging"] ["1"; "5"] ["master"; "2"]
    (Some "master") false false.

(** The same, with local changes that stand in the way of a rebase. *)
Definition diverged_tracks : directory :=
  mkDirectory true [".git"; "geonames"; ".idea"; "logging"] ["1"; "5"] ["master"; "2"]
    (Some "master") false true.

(** The same, with local changes that stand in the way of a checkout. *)
Definition locked_tracks : directory :=
  mkDirectory true [".git"; "geonames"; ".idea"; "logging"] ["1"; "5"] ["master"; "2"]
    (Some "master") true false.



Definition offline_repository : Repository.TrackRepository :=
  Repository.mkTrackRepository "benchmarks/tracks/default" true true.

(** The specification of a track: one index with documents, one without
    types, three operations and one challenge. *)
Definition docs_spec : json :=
  JObj [("name", JStr "docs"); ("mapping", JStr "mappings.json");
        ("documents", JStr "documents.json.bz2"); ("document-count", JInt 8000);
        ("compressed-bytes", JInt 100); ("uncompressed-bytes", JInt 2500)].

Definition parallel_spec : list (string * json) :=
  [("clients", JInt 4); ("iterations", JInt 100);
   ("tasks", JList [JObj [("operation", JStr "merge")];
                    JObj [("operation", JStr "percolate"); ("clients", JInt 2);
                          ("iterations", JInt 20)]])].

Definition challenge_spec : list (string * json) :=
  [("name", JStr "append-only"); ("description", JStr "Index and merge");
   ("schedule", JList [JObj [("operation", JStr "index-append"); ("clients", JInt 8)];
                       JObj [("parallel", JObj parallel_spec)]])].

Definition geonames_meta : list (string * json) :=
  [("short-description", JStr "Geonames"); ("description", JStr "Points of interest");
   ("data-url", JStr "http://benchmarks.example.org/geonames")].

Definition geonames_spec : list (string * json) :=
  [("meta", JObj geonames_meta);
   ("indices", JList [JObj [("name", JStr "geonames"); ("types", JList [docs_spec])];
                      JObj [("name", JStr "queries"); ("types", JList [])]]);
   ("operations", sample_operations);
   ("challenges", JList [JObj challenge_spec])].

(** An operation defined twice. *)
Definition merge_first : json :=
  JObj [("name", JStr "merge"); ("operation-type", JStr "index")].

Definition merge_last : list (string * json) :=
  [("name", JStr "merge"); ("operation-type", JStr "force-merge")].

(** The archive in place, and an archive that inflates to 2000 bytes. *)
Definition short_inflate_world : world :=
  mkWorld (<["data/geonames/documents.json.bz2" := 100]> ∅) ∅
          (<["data/geonames/documents.json.bz2" := 2000]> ∅).

(** Nothing local, a server that delivers the 100 bytes and an archive
    that inflates to the 2500 bytes. *)
Definition serving_world : world :=
  mkWorld ∅ (<["http://benchmarks.example.org/geonames/documents.json.bz2" := 100]> ∅)
          (<["data/geonames/documents.json.bz2" := 2500]> ∅).

(** A document group whose data are nowhere, and one without data. *)
Definition percolator : Reader.Type_ :=
  Reader.mkType (JStr "queries") "tracks/geonames/queries.json"
    (Some "data/geonames/queries.json") (Some "data/geonames/queries.json.bz2")
    (JInt 10) (JInt 50) (JInt 500).

Definition mapping_only : Reader.Type_ :=
  Reader.mkType (JStr "logs") "tracks/geonames/logs.json" None None (JInt 0) JNull JNull.

Definition two_groups : Track :=
  mkTrack (JStr "geonames") JNull JNull geonames_url []
    [mkIndex (JStr "geonames") [documents]; mkIndex (JStr "queries") [percolator]].

Definition no_data : Track :=
  mkTrack (JStr "logging") JNull JNull geonames_url []
    [mkIndex (JStr "logs") [mapping_only; mapping_only]; mkIndex (JStr "empty") []].

End Sample.

(** * Properties *)

(** ** Messages *)

Lemma str_contains_unfold (p s : string) :
  Py.str_contains p s =
  (String.prefix p s ||
   match s with
   | EmptyString => false
   | String _ s' => Py.str_contains p s'
   end).
Proof. destruct s; reflexivity. Qed.

Lemma prefix_append (p s : string) : String.prefix p (p +:+ s) = true.
Proof.
  induction p as [|a p IH]; simpl.
  - destruct s; reflexivity.
  - destruct (ascii_dec a a); [exact IH | congruence].
Qed.

Lemma mentions_here (x rest : string) : mentions (x +:+ rest) x.
Proof.
  unfold mentions. rewrite str_contains_unfold, prefix_append. reflexivity.
Qed.

Lemma mentions_skip (pre m x : string) : mentions m x -> mentions (pre +:+ m) x.
Proof.
  unfold mentions. intros Hm.
  induction pre as [|a pre IH]; simpl; [exact Hm|].
  rewrite IH. apply orb_true_r.
Qed.

Lemma append_assoc (a b c : string) : (a +:+ b) +:+ c = a +:+ b +:+ c.
Proof.
  induction a as [|x a IH]; [reflexivity | exact (f_equal (String x) IH)].
Qed.

Lemma mentions_here_app (x y rest : string) : mentions (x +:+ y +:+ rest) (x +:+ y).
Proof. rewrite <- append_assoc. apply mentions_here. Qed.

(** A text occurs in a message exactly when the message splits around it. *)
Lemma prefix_split (p s : string) :
  String.prefix p s = true -> exists post, s = p +:+ post.
Proof.
  revert s. induction p as [|a p IH]; intros s Hp.
  - exists s. reflexivity.
  - destruct s as [|b s]; simpl in Hp; [discriminate|].
    destruct (ascii_dec a b) as [->|]; [|discriminate].
    destruct (IH s Hp) as [post ->]. exists post. reflexivity.
Qed.

Lemma mentions_split (msg x : string) :
  mentions msg x <-> exists pre post, msg = pre +:+ x +:+ post.
Proof.
  split.
  - unfold mentions. induction msg as [|c msg IH]; intros Hm.
    + rewrite str_contains_unfold, orb_false_r in Hm.
      destruct (prefix_split _ _ Hm) as [post Hpost].
      exists EmptyString, post. exact Hpost.
    + rewrite str_contains_unfold in Hm. apply orb_true_iff in Hm as [Hm|Hm].
      * destruct (prefix_split _ _ Hm) as [post Hpost].
        exists EmptyString, post. exact Hpost.
      * destruct (IH Hm) as (pre & post & ->).
        exists (String c pre), post. reflexivity.
  - intros (pre & post & ->). apply mentions_skip, mentions_here.
Qed.

(** Finds a text among the pieces a message is put together from. *)
Ltac names := repeat first [ apply mentions_here | apply mentions_skip ].

(** ** The field lookup *)

Section ReaderFacts.
Context {RT : PyRuntime} {TM : Reader.TrackModule}.
Import Reader.
Variable name : json.

Lemma walk_missing (path : list string) : forall root,
  missing root path = true -> exists k, walk root path = Raise (KeyError k).
Proof.
  induction path as [|k rest IH]; intros root Hm; simpl in Hm; [discriminate|].
  destruct root; try discriminate. simpl.
  destruct (Py.lookup k kvs) as [v|]; simpl.
  - apply IH, Hm.
  - exists k. reflexivity.
Qed.

Lemma walk_key_error (path : list string) : forall root k,
  walk root path = Raise (KeyError k) -> missing root path = true.
Proof.
  induction path as [|k' rest IH]; intros root k Hw; simpl in Hw; [discriminate|].
  destruct root; simpl in Hw; try discriminate. simpl.
  destruct (Py.lookup k' kvs) as [v|]; simpl in Hw; [|reflexivity].
  eapply IH, Hw.
Qed.

(** A single key looked up in a mapping. *)
Lemma r_key (kvs : list (string * json)) (k : string) (ctx : json) (m : bool) (d : json) :
  _r name (JObj kvs) (PStr k) ctx m d =
  match Py.lookup k kvs with
  | Some v => Ok v
  | None =>
      if m then
        if Py.truthy ctx then
          _error name ("Mandatory element '" +:+ k +:+ "' is missing in '"
                       +:+ Py.str ctx +:+ "'.")
        else _error name ("Mandatory element '" +:+ k +:+ "' is missing.")
      else Ok d
  end.
Proof. unfold _r. simpl. destruct (Py.lookup k kvs); reflexivity. Qed.

Lemma r_optional (kvs : list (string * json)) (k : string) (ctx d : json) :
  _r name (JObj kvs) (PStr k) ctx false d = Ok (Py.get k kvs d).
Proof. rewrite r_key. unfold Py.get. destruct (Py.lookup k kvs); reflexivity. Qed.

(** C5 (as amended).  A lookup of a mandatory field with a missing path
    component fails with a syntax error that names the track and the
    dotted path, and names the enclosing entity when a non-empty error
    context was passed; a lookup of an optional field with a missing path
    component returns the default value and raises nothing. *)
Theorem r_missing_field (root : json) (path : path_arg) (error_ctx default_value : json) :
  missing root (path_keys path) = true ->
  (exists msg,
      _r name root path error_ctx true default_value = Raise (TrackSyntaxError msg)
      /\ msg = "Track '" +:+ Py.str name +:+ "' is invalid. Mandatory element '"
              +:+ Py.join "." (path_keys path)
              +:+ (if Py.truthy error_ctx
                   then "' is missing in '" +:+ Py.str error_ctx +:+ "'."
                   else "' is missing.")
      /\ mentions msg (Py.str name)
      /\ mentions msg (Py.join "." (path_keys path))
      /\ (Py.truthy error_ctx = true -> mentions msg (Py.str error_ctx)))
  /\ _r name root path error_ctx false default_value = Ok default_value.
Proof.
  intros Hm. destruct (walk_missing _ _ Hm) as [k Hw].
  unfold _r. rewrite Hw. split; [|reflexivity].
  destruct (Py.truthy error_ctx); unfold _error; eexists;
    (split; [reflexivity|]); (split; [reflexivity|]);
    repeat split; try discriminate; try (intros _); names.
Qed.

(** ** The operations table and the schedule *)

Lemma key_eq_refl (k : json) : Py.hashable k = true -> Py.key_eq k k = true.
Proof.
  destruct k as [|b|z|s|l|kvs]; simpl; try discriminate; intros _.
  - reflexivity.
  - destruct b; reflexivity.
  - apply Z.eqb_refl.
  - apply String.eqb_refl.
Qed.

Lemma ops_get_set (k : json) (o : Operation) (ops : ops_table) :
  Py.hashable k = true -> ops_get k (ops_set k o ops) = Some o.
Proof.
  intros Hk. induction ops as [|[k' o'] rest IH]; simpl.
  - rewrite key_eq_refl by exact Hk. reflexivity.
  - destruct (Py.key_eq k k') eqn:E; simpl; rewrite E; [reflexivity | exact IH].
Qed.

Lemma rmap_raise {A B} (f : A -> result B) (pre : list A) (x : A) (post : list A) (e : exn) :
  Forall (fun a => exists b, f a = Ok b) pre ->
  f x = Raise e ->
  rmap f (pre ++ x :: post) = Raise e.
Proof.
  intros Hpre Hx. induction Hpre as [|a pre [b Hb] _ IH]; simpl.
  - rewrite Hx. reflexivity.
  - rewrite Hb. simpl. rewrite IH. reflexivity.
Qed.

(** What [parse_task] builds for a task whose operation is known. *)
Lemma parse_task_known (kvs : list (string * json)) (ops : ops_table)
    (challenge default_warmup default_iterations op_name : json) (op : Operation) :
  Py.lookup "operation" kvs = Some op_name ->
  Py.hashable op_name = true ->
  ops_get op_name ops = Some op ->
  parse_task name (JObj kvs) ops challenge default_warmup default_iterations =
  Ok (mkTask op
        (Py.get "warmup-iterations" kvs default_warmup)
        (Py.get "warmup-time-period" kvs JNull)
        (Py.get "iterations" kvs default_iterations)
        (Py.get "clients" kvs (JInt 1))
        (Py.get "target-throughput" kvs JNull)).
Proof.
  intros Hop Hh Hget. unfold parse_task. simpl. rewrite Hop. simpl.
  rewrite Hh, Hget. simpl. rewrite !r_optional. reflexivity.
Qed.

(** What [parse_parallel] does with a block that lists its tasks: the
    defaults it hands to [parse_task] are the block's own values, [None]
    where the block declares none. *)
Lemma parse_parallel_tasks (bkvs : list (string * json)) (specs : list json)
    (ops : ops_table) (challenge : json) :
  Py.lookup "tasks" bkvs = Some (JList specs) ->
  parse_parallel name (JObj bkvs) ops challenge =
  let* tasks := rmap (fun task =>
                        parse_task name task ops challenge
                          (Py.get "warmup-iterations" bkvs JNull)
                          (Py.get "iterations" bkvs JNull)) specs in
  Ok (mkParallel tasks (Py.get "clients" bkvs JNull)).
Proof.
  intros Ht. unfold parse_parallel. rewrite !r_optional. simpl.
  rewrite r_key, Ht. reflexivity.
Qed.

Lemma rmap_ok {A B} (f : A -> result B) (xs : list A) : forall ys,
  rmap f xs = Ok ys -> Forall2 (fun x y => f x = Ok y) xs ys.
Proof.
  induction xs as [|x xs IH]; simpl; intros ys Hr.
  - injection Hr as <-. constructor.
  - destruct (f x) as [y|] eqn:Ex; simpl in Hr; [|discriminate].
    destruct (rmap f xs) as [ys'|]; simpl in Hr; [|discriminate].
    injection Hr as <-. constructor; [exact Ex | apply IH; reflexivity].
Qed.

Lemma parse_task_ok (task_spec : json) (ops : ops_table)
    (challenge default_warmup default_iterations : json) (t : Task) :
  parse_task name task_spec ops challenge default_warmup default_iterations = Ok t ->
  exists kvs,
    task_spec = JObj kvs
    /\ warmup_iterations t = Py.get "warmup-iterations" kvs default_warmup
    /\ iterations t = Py.get "iterations" kvs default_iterations.
Proof.
  unfold parse_task. destruct task_spec as [| | | | |kvs]; simpl; try discriminate.
  destruct (Py.lookup "operation" kvs) as [op_name|]; simpl; [|discriminate].
  destruct (Py.hashable op_name); simpl; [|discriminate].
  destruct (ops_get op_name ops) as [op|]; [|discriminate].
  rewrite !r_optional. simpl. intros [= <-]. exists kvs. auto.
Qed.

(** The values the children of a parallel block end up with: the task's
    own value when it declares one, else the block's, else [None]. *)
Lemma parallel_child_values (bkvs : list (string * json)) (specs : list json)
    (ops : ops_table) (challenge : json) (p : Parallel) :
  Py.lookup "tasks" bkvs = Some (JList specs) ->
  parse_parallel name (JObj bkvs) ops challenge = Ok p ->
  Forall2 (fun spec t =>
             exists kvs,
               spec = JObj kvs
               /\ warmup_iterations t
                  = Py.get "warmup-iterations" kvs (Py.get "warmup-iterations" bkvs JNull)
               /\ iterations t
                  = Py.get "iterations" kvs (Py.get "iterations" bkvs JNull))
          specs (tasks p).
Proof.
  intros Ht. rewrite (parse_parallel_tasks _ _ _ _ Ht).
  destruct (rmap _ specs) as [ts|] eqn:Er; simpl; [|discriminate].
  intros [= <-]. simpl. apply rmap_ok in Er.
  eapply Forall2_impl; [exact Er|]. intros spec t Hp. apply parse_task_ok in Hp. exact Hp.
Qed.

Lemma parse_task_unknown (kvs : list (string * json)) (ops : ops_table)
    (challenge default_warmup default_iterations op_name : json) :
  Py.lookup "operation" kvs = Some op_name ->
  Py.hashable op_name = true ->
  ops_get op_name ops = None ->
  parse_task name (JObj kvs) ops challenge default_warmup default_iterations =
  _error name ("'schedule' for challenge '" +:+ Py.str challenge
               +:+ "' contains a non-existing operation '" +:+ Py.str op_name
               +:+ "'. Please add an operation '" +:+ Py.str op_name
               +:+ "' to the 'operations' block.").
Proof.
  intros Hop Hh Hget. unfold parse_task. simpl. rewrite Hop. simpl.
  rewrite Hh, Hget. reflexivity.
Qed.

(** C3.  A schedule entry whose operation name is not in the operations
    table makes parsing fail with a syntax error whose message names the
    challenge and the missing operation: in [parse_task] whatever the
    defaults, for a top-level task of the schedule, and for a child of a
    parallel block once the children before it have been parsed. *)
Theorem unknown_operation_is_syntax_error (kvs : list (string * json)) (ops : ops_table)
    (challenge op_name : json) :
  Py.lookup "operation" kvs = Some op_name ->
  Py.hashable op_name = true ->
  ops_get op_name ops = None ->
  exists msg,
    mentions msg (Py.str challenge) /\ mentions msg (Py.str op_name)
    /\ (forall default_warmup default_iterations,
          parse_task name (JObj kvs) ops challenge default_warmup default_iterations
          = Raise (TrackSyntaxError msg))
    /\ (Py.lookup "parallel" kvs = None ->
        parse_schedule_entry name (JObj kvs) ops challenge = Raise (TrackSyntaxError msg))
    /\ (forall entry bkvs pre post,
          Py.lookup "parallel" entry = Some (JObj bkvs) ->
          Py.lookup "tasks" bkvs = Some (JList (pre ++ JObj kvs :: post)) ->
          Forall (fun task => exists t,
                    parse_task name task ops challenge
                      (Py.get "warmup-iterations" bkvs JNull)
                      (Py.get "iterations" bkvs JNull) = Ok t) pre ->
          parse_parallel name (JObj bkvs) ops challenge = Raise (TrackSyntaxError msg)
          /\ parse_schedule_entry name (JObj entry) ops challenge
             = Raise (TrackSyntaxError msg)).
Proof.
  intros Hop Hh Hget.
  pose proof (parse_task_unknown kvs ops challenge) as Hu.
  unfold _error in Hu. eexists. split; [|split; [|split; [|split]]].
  3: { intros dw di. rewrite (Hu dw di op_name Hop Hh Hget). reflexivity. }
  - names.
  - names.
  - intros Hpar. unfold parse_schedule_entry, parse_task_top. simpl. rewrite Hpar. simpl.
    rewrite (Hu _ _ op_name Hop Hh Hget). reflexivity.
  - intros entry bkvs pre post Hentry Htasks Hpre.
    assert (parse_parallel name (JObj bkvs) ops challenge = Raise (TrackSyntaxError
              ("Track '" +:+ Py.str name +:+ "' is invalid. "
               +:+ "'schedule' for challenge '" +:+ Py.str challenge
               +:+ "' contains a non-existing operation '" +:+ Py.str op_name
               +:+ "'. Please add an operation '" +:+ Py.str op_name
               +:+ "' to the 'operations' block."))) as Hp.
    { rewrite (parse_parallel_tasks _ _ _ _ Htasks). simpl.
      erewrite rmap_raise; [reflexivity | exact Hpre |].
      apply (Hu _ _ op_name Hop Hh Hget). }
    split; [exact Hp|].
    unfold parse_schedule_entry. simpl. rewrite Hentry. simpl. rewrite Hp. reflexivity.
Qed.

(** C10.  [parse_task] indexes the task specification with the key
    [operation] before anything else: a specification without that key
    fails with the bare [KeyError] of the key, the same for every track
    and challenge and not a track syntax error, also as an entry of a
    schedule; so a task that is parsed, or rejected with a track syntax
    error, has the key. *)
Theorem missing_operation_key_is_key_error (kvs : list (string * json)) :
  Py.lookup "operation" kvs = None ->
  (forall ops challenge default_warmup default_iterations,
      parse_task name (JObj kvs) ops challenge default_warmup default_iterations
      = Raise (KeyError "operation"))
  /\ (forall ops challenge,
        Py.lookup "parallel" kvs = None ->
        parse_schedule_entry name (JObj kvs) ops challenge = Raise (KeyError "operation"))
  /\ (forall msg, KeyError "operation" <> TrackSyntaxError msg)
  /\ (forall task_spec ops challenge default_warmup default_iterations,
        ((exists t, parse_task name task_spec ops challenge default_warmup
                      default_iterations = Ok t)
         \/ (exists msg, parse_task name task_spec ops challenge default_warmup
                           default_iterations = Raise (TrackSyntaxError msg))) ->
        exists kvs' op_name,
          task_spec = JObj kvs' /\ Py.lookup "operation" kvs' = Some op_name).
Proof.
  intros Hop. split; [|split; [|split]].
  - intros. unfold parse_task. simpl. rewrite Hop. reflexivity.
  - intros ops challenge Hpar. unfold parse_schedule_entry, parse_task_top, parse_task.
    simpl. rewrite Hpar. simpl. rewrite Hop. reflexivity.
  - discriminate.
  - intros task_spec ops challenge dw di Hres.
    unfold parse_task in Hres.
    destruct task_spec as [| | | | |kvs']; simpl in Hres;
      try (destruct Hres as [[t Ht]|[msg Ht]]; discriminate).
    destruct (Py.lookup "operation" kvs') as [op_name|] eqn:E.
    + exists kvs', op_name. split; [reflexivity | exact E].
    + simpl in Hres. destruct Hres as [[t Ht]|[msg Ht]]; discriminate.
Qed.

(** C6.  An operation whose type is a string: when a built-in kind
    matches the string up to case and hyphens, the operation is stored
    with that kind's canonical name; when none matches, it is stored with
    the string as given, and the operation is parsed all the same. *)
Theorem operation_type_resolution (kvs : list (string * json)) (ops : ops_table)
    (op_name : json) (type_name : string) :
  Py.lookup "name" kvs = Some op_name ->
  Py.hashable op_name = true ->
  Py.lookup "operation-type" kvs = Some (JStr type_name) ->
  (forall op_type, operation_invalid op_name op_type (JObj kvs)
                     (Py.get "param-source" kvs JNull) = None) ->
  exists op_type ops',
    parse_operation name ops (JObj kvs) = Ok ops'
    /\ ops_get op_name ops'
       = Some (mkOperation op_name op_type (JObj kvs) (Py.get "param-source" kvs JNull))
    /\ ((exists kind, In kind builtin_kinds
                      /\ normalize kind = normalize type_name
                      /\ op_type = JStr kind)
        \/ ((forall kind, In kind builtin_kinds -> normalize kind <> normalize type_name)
            /\ op_type = JStr type_name)).
Proof.
  intros Hname Hh Htype Hvalid.
  unfold parse_operation. rewrite r_key, Hname. simpl. rewrite r_key, Htype. simpl.
  destruct (find (fun k => String.eqb (normalize k) (normalize type_name)) builtin_kinds)
    as [kind|] eqn:Ef; simpl; rewrite r_optional; simpl; rewrite Hvalid, Hh.
  - exists (JStr kind). eexists. split; [reflexivity|]. split.
    + apply ops_get_set, Hh.
    + left. apply find_some in Ef as [Hin Heq]. exists kind.
      apply String.eqb_eq in Heq. auto.
  - exists (JStr type_name). eexists. split; [reflexivity|]. split.
    + apply ops_get_set, Hh.
    + right. split; [|reflexivity]. intros kind Hin.
      apply (find_none _ _ Ef) in Hin. apply String.eqb_neq in Hin. exact Hin.
Qed.

(** C7 (as amended).  In a document group built from a mapping, each size
    field holds the value the specification declares for it and is
    [None] when the specification omits it, whether or not there is an
    archive path; the archive path is there exactly when [documents] is
    declared with a non-empty value.  So both sizes are present when the
    archive is and the specification declares both. *)
Theorem create_type_sizes (kvs : list (string * json)) (mapping_dir data_dir : string)
    (t : Type_) :
  _create_type name (JObj kvs) mapping_dir data_dir = Ok t ->
  compressed_size_in_bytes t = Py.get "compressed-bytes" kvs JNull
  /\ uncompressed_size_in_bytes t = Py.get "uncompressed-bytes" kvs JNull
  /\ (document_archive t <> None <-> Py.truthy (Py.get "documents" kvs JNull) = true)
  /\ (document_archive t <> None ->
      Py.get "compressed-bytes" kvs JNull <> JNull ->
      Py.get "uncompressed-bytes" kvs JNull <> JNull ->
      compressed_size_in_bytes t <> JNull /\ uncompressed_size_in_bytes t <> JNull).
Proof.
  unfold _create_type. rewrite !r_optional, !r_key. simpl.
  destruct (Py.truthy (Py.get "documents" kvs JNull)) eqn:Et.
  - destruct (io_splitext (Py.get "documents" kvs JNull)) as [parts|]; simpl; [|discriminate].
    destruct (Py.lookup "name" kvs); simpl; [|destruct (Py.truthy JNull); discriminate].
    destruct (Py.lookup "mapping" kvs); simpl; [|destruct (Py.truthy JNull); discriminate].
    intros [= <-]. simpl. repeat split; auto; discriminate.
  - simpl.
    destruct (Py.lookup "name" kvs); simpl; [|destruct (Py.truthy JNull); discriminate].
    destruct (Py.lookup "mapping" kvs); simpl; [|destruct (Py.truthy JNull); discriminate].
    intros [= <-]. simpl. repeat split; auto; try discriminate; congruence.
Qed.

End ReaderFacts.

(** ** The asset stager *)

Section StagerFacts.
Context {RT : PyRuntime} {TM : Reader.TrackModule} {World : Type} {IO : StagerIO World}.
Import Reader Stager.

Lemma exists_with_size_run (p : string) (size : json) (w : World) :
  exists_with_size p size w =
  ([], Done match file_size w p with
            | Some n => Py.int_eq n size
            | None => false
            end w).
Proof.
  unfold exists_with_size, isfile, getsize, ask, mbind', mret.
  destruct (file_size w p) eqn:E; simpl; rewrite ?E; reflexivity.
Qed.

Lemma then_value {A B} (m : M World A) (b : B) (w w' : World)
    (tr : list event) (b' : B) :
  (m >> mret b) w = (tr, Done b' w') -> b' = b.
Proof.
  unfold mbind', mret. destruct (m w) as [t [a w1|e w1]]; intros [=]; congruence.
Qed.

(** The download step reports a skip only when it found the archive with
    the expected size, and then it has left the world alone. *)
Lemma download_step_skipped (offline : bool) (url local_path : string) (size : json)
    (w w' : World) (tr : list event) :
  download_step offline url local_path size w = (tr, Done true w') ->
  w' = w /\ exists n, file_size w local_path = Some n /\ Py.int_eq n size = true.
Proof.
  unfold download_step, mbind' at 1. rewrite exists_with_size_run.
  destruct (file_size w local_path) as [n|].
  - destruct (Py.int_eq n size) eqn:E.
    + unfold mbind', emit, mret. simpl. intros [= _ <-]. eauto.
    + destruct (((if negb offline then attempt_download url local_path size else mret tt)
                 >> mret false) w) as [t o] eqn:Em.
      intros [= <- ->]. apply then_value in Em. discriminate.
  - destruct (((if negb offline then attempt_download url local_path size else mret tt)
               >> mret false) w) as [t o] eqn:Em.
    intros [= <- ->]. apply then_value in Em. discriminate.
Qed.

(** Nothing is decompressed during the download step. *)
Lemma download_step_trace (offline : bool) (url local_path : string) (size : json)
    (w : World) :
  Forall (fun e => is_decompression e = false)
         (fst (download_step offline url local_path size w)).
Proof.
  unfold download_step, mbind' at 1. rewrite exists_with_size_run.
  destruct (match file_size w local_path with
            | Some n => Py.int_eq n size
            | None => false
            end).
  - unfold mbind', emit, mret. simpl. repeat constructor.
  - destruct offline; simpl.
    + unfold mbind', mret. simpl. constructor.
    + unfold attempt_download, try_except, mbind', emit, call, lift, mret, mraise. simpl.
      destruct (io_ensure_dir (OsPath.dirname local_path) w) as [[] w1|e w1]; simpl.
      * destruct (size_in_mb size) as [mb|e]; simpl.
        -- destruct (net_download url local_path size w1) as [[] w2|e w2]; simpl.
           ++ repeat constructor.
           ++ destruct (is_URLError e); simpl; repeat constructor.
        -- destruct (is_URLError e); simpl; repeat constructor.
      * destruct (is_URLError e); simpl; repeat constructor.
Qed.

Lemma stage_type_after_download (offline : bool) (root_url : json) (t : Type_)
    (archive : string) (w w' : World) (tr : list event) (skipped : bool) (e : exn) :
  document_archive t = Some archive ->
  archive <> EmptyString ->
  download_step offline (data_url root_url archive) archive
    (compressed_size_in_bytes t) w = (tr, Done skipped w') ->
  skipped = false ->
  verify_download offline (data_url root_url archive) archive
    (compressed_size_in_bytes t) w' = ([], Fail e w') ->
  stage_type offline root_url t w = (tr, Fail e w').
Proof.
  intros Ha Hne Hstep -> Hv.
  unfold stage_type. rewrite Ha.
  apply String.eqb_neq in Hne. rewrite Hne. simpl.
  unfold mbind' at 1. unfold download. unfold mbind' at 1.
  rewrite Hstep, Hv. rewrite app_nil_r. reflexivity.
Qed.

Lemma stage_type_staged (offline : bool) (root_url : json) (t : Type_)
    (archive basename extension : string) (a u : Z) (w : World) :
  document_archive t = Some archive ->
  archive <> EmptyString ->
  file_size w archive = Some a ->
  Py.int_eq a (compressed_size_in_bytes t) = true ->
  io_splitext (JStr archive) = Ok (basename, extension) ->
  file_size w basename = Some u ->
  Py.int_eq u (uncompressed_size_in_bytes t) = true ->
  stage_type offline root_url t w =
    ([LogInfo ("[" +:+ archive +:+ "] already exists locally. Skipping download.");
      PrepareFileOffsetTable basename],
     io_prepare_file_offset_table basename w).
Proof.
  intros Ha Hne Hfa Hca Hsplit Hfu Hcu.
  unfold stage_type. rewrite Ha.
  apply String.eqb_neq in Hne. rewrite Hne. simpl.
  unfold download, download_step, decompress.
  unfold mbind' at 1. unfold mbind' at 1. unfold mbind' at 1.
  rewrite exists_with_size_run, Hfa, Hca.
  unfold mbind', emit, mret, lift, call. simpl.
  rewrite Hsplit. simpl.
  rewrite exists_with_size_run, Hfu, Hcu. simpl.
  destruct (io_prepare_file_offset_table basename w); reflexivity.
Qed.

(** C2.  A document group whose archive is there with the expected
    compressed size and whose decompressed file is there with the
    expected uncompressed size: staging it checks the two files, notes
    that the download is skipped and rebuilds the offset table; it
    downloads nothing and decompresses nothing. *)
Theorem stage_type_idempotent (offline : bool) (root_url : json) (t : Type_)
    (archive basename extension : string) (a u : Z) (w : World) :
  document_archive t = Some archive ->
  archive <> EmptyString ->
  file_size w archive = Some a ->
  Py.int_eq a (compressed_size_in_bytes t) = true ->
  io_splitext (JStr archive) = Ok (basename, extension) ->
  file_size w basename = Some u ->
  Py.int_eq u (uncompressed_size_in_bytes t) = true ->
  stage_type offline root_url t w =
    ([LogInfo ("[" +:+ archive +:+ "] already exists locally. Skipping download.");
      PrepareFileOffsetTable basename],
     io_prepare_file_offset_table basename w)
  /\ Forall (fun e => is_transfer e = false) (fst (stage_type offline root_url t w)).
Proof.
  intros Ha Hne Hfa Hca Hsplit Hfu Hcu.
  pose proof (stage_type_staged offline root_url t archive basename extension a u w
                Ha Hne Hfa Hca Hsplit Hfu Hcu) as Hrun.
  split; [exact Hrun|]. rewrite Hrun. simpl. repeat constructor.
Qed.

(** A loop whose body keeps an invariant of the world and moves no data
    moves no data. *)
Lemma mfor_no_transfer {A} (Inv : World -> Prop) (xs : list A)
    (body : A -> M World unit) :
  (forall x w, In x xs -> Inv w ->
     Forall (fun e => is_transfer e = false) (fst (body x w))
     /\ Inv (outcome_world (snd (body x w)))) ->
  forall w, Inv w ->
    Forall (fun e => is_transfer e = false) (fst (mfor xs body w))
    /\ Inv (outcome_world (snd (mfor xs body w))).
Proof.
  induction xs as [|x xs IH]; intros Hbody w Hw; simpl.
  - split; [constructor | exact Hw].
  - destruct (Hbody x w (or_introl eq_refl) Hw) as [Htr Hinv].
    unfold mbind'. destruct (body x w) as [t [[] w1|e w1]]; simpl in *.
    + destruct (IH (fun y w' Hy => Hbody y w' (or_intror Hy)) w1 Hinv) as [Htr' Hinv'].
      destruct (mfor xs body w1) as [t' o]. simpl in *.
      split; [apply Forall_app; split; assumption | exact Hinv'].
    + split; assumption.
Qed.

(** The whole of [prepare_track], when every document group is staged
    and rebuilding an offset table leaves the sizes of the data files as
    they are: no download, no decompression. *)
Lemma prepare_track_no_transfer (keep : string -> Prop) (track : Track)
    (offline : bool) (w : World) :
  (forall path w' q, keep q ->
     file_size (outcome_world (io_prepare_file_offset_table path w')) q = file_size w' q) ->
  Forall (fun index => Forall (staged keep w) (types index)) (indices track) ->
  Forall (fun e => is_transfer e = false) (fst (prepare_track track offline w)).
Proof.
  intros Hframe Hstaged.
  set (Inv := fun w' => Forall (fun index => Forall (staged keep w') (types index))
                          (indices track)).
  assert (forall t w', staged keep w' t ->
            Forall (fun e => is_transfer e = false)
                   (fst (stage_type offline (source_root_url track) t w'))
            /\ forall q, keep q ->
                 file_size (outcome_world
                              (snd (stage_type offline (source_root_url track) t w'))) q
                 = file_size w' q) as Hstage.
  { intros t w' Hs. unfold staged in Hs.
    destruct (document_archive t) as [archive|] eqn:Ea.
    - destruct (String.eqb archive EmptyString) eqn:Ee.
      + unfold stage_type. rewrite Ea, Ee. simpl. split; [constructor | reflexivity].
      + apply String.eqb_neq in Ee.
        destruct (Hs Ee) as (b & x & a & u & Hsp & _ & _ & Hfa & Hca & Hfu & Hcu).
        rewrite (stage_type_staged offline _ t archive b x a u w' Ea Ee Hfa Hca Hsp Hfu Hcu).
        simpl. split; [repeat constructor | intros q Hq; apply Hframe, Hq].
    - unfold stage_type. rewrite Ea. simpl. split; [constructor | reflexivity]. }
  assert (forall w1 w2, (forall q, keep q -> file_size w2 q = file_size w1 q) ->
            Inv w1 -> Inv w2) as Hkeep.
  { intros w1 w2 Hsame Hinv. unfold Inv in *.
    eapply Forall_impl; [exact Hinv|]. intros index Hidx.
    eapply Forall_impl; [exact Hidx|]. intros t Hs. unfold staged in *.
    destruct (document_archive t) as [archive|]; [|exact I].
    intros Hne. destruct (Hs Hne) as (b & x & a & u & Hsp & Hka & Hkb & Hfa & Hca & Hfu & Hcu).
    exists b, x, a, u. rewrite (Hsame _ Hka), (Hsame _ Hkb). auto 10. }
  unfold prepare_track.
  apply (mfor_no_transfer Inv); [|exact Hstaged].
  intros index w1 Hin Hinv.
  assert (Forall (staged keep w1) (types index)) as Hidx.
  { unfold Inv in Hinv. rewrite Forall_forall in Hinv.
    apply Hinv, list_elem_of_In, Hin. }
  destruct (mfor_no_transfer
              (fun w' => Inv w' /\ Forall (staged keep w') (types index))
              (types index)
              (fun type => stage_type offline (source_root_url track) type))
    with (w := w1) as (Htr & Hinv' & _); [| split; assumption | split; assumption].
  intros t w2 Ht [Hinv2 Hidx2].
  assert (staged keep w2 t) as Hs.
  { rewrite Forall_forall in Hidx2. apply Hidx2, list_elem_of_In, Ht. }
  destruct (Hstage t w2 Hs) as [Htr Hsame]. split; [exact Htr|]. split.
  - eapply Hkeep; [exact Hsame | exact Hinv2].
  - eapply Forall_impl; [exact Hidx2|]. intros t' Hs'.
    unfold staged in *. destruct (document_archive t') as [archive|]; [|exact I].
    intros Hne.
    destruct (Hs' Hne) as (b & x & a & u & Hsp & Hka & Hkb & Hfa & Hca & Hfu & Hcu).
    exists b, x, a, u. rewrite (Hsame _ Hka), (Hsame _ Hkb). auto 10.
Qed.

(** C4.  When the archive that the download step leaves behind has a
    size other than the expected compressed size, staging the document
    group stops there with a data error whose message cites the actual
    and the expected number of bytes; nothing has been decompressed. *)
Theorem download_size_mismatch (offline : bool) (root_url : json) (t : Type_)
    (archive : string) (expected actual : Z) (w w' : World) (tr : list event)
    (skipped : bool) :
  document_archive t = Some archive ->
  archive <> EmptyString ->
  Py.as_int (compressed_size_in_bytes t) = Some expected ->
  download_step offline (data_url root_url archive) archive
    (compressed_size_in_bytes t) w = (tr, Done skipped w') ->
  file_size w' archive = Some actual ->
  actual <> expected ->
  exists msg,
    stage_type offline root_url t w = (tr, Fail (DataError msg) w')
    /\ msg = "[" +:+ archive +:+ "] is corrupt. Downloaded [" +:+ Py.string_of_Z actual
             +:+ "] bytes but [" +:+ Py.string_of_Z expected +:+ "] bytes are expected."
    /\ mentions msg (Py.string_of_Z actual)
    /\ mentions msg (Py.string_of_Z expected)
    /\ Forall (fun e => is_decompression e = false) tr.
Proof.
  intros Ha Hne Hexp Hstep Hfile Hdiff.
  assert (Py.int_eq actual (compressed_size_in_bytes t) = false) as Hneq.
  { unfold Py.int_eq. rewrite Hexp. apply Z.eqb_neq, Hdiff. }
  eexists. split; [|split; [reflexivity|split; [|split]]].
  - destruct skipped.
    + apply download_step_skipped in Hstep as [-> (n & Hn & Heq)]. congruence.
    + eapply stage_type_after_download; eauto.
      unfold verify_download, isfile, getsize, ask, mbind', lift, mraise, Py.fmt_d.
      repeat (first [rewrite Hfile | rewrite Hneq | rewrite Hexp]; simpl). reflexivity.
  - names.
  - names.
  - pose proof (download_step_trace offline (data_url root_url archive) archive
                  (compressed_size_in_bytes t) w) as Htr.
    rewrite Hstep in Htr. exact Htr.
Qed.

(** C9.  When there is no archive once the download step is over,
    staging the document group stops with a setup error: offline, its
    message tells to disable offline mode; online, it tells to verify
    that the data are available at the URL and to check the internet
    connection. *)
Theorem download_missing_archive (offline : bool) (root_url : json) (t : Type_)
    (archive : string) (w w' : World) (tr : list event) (skipped : bool) :
  document_archive t = Some archive ->
  archive <> EmptyString ->
  download_step offline (data_url root_url archive) archive
    (compressed_size_in_bytes t) w = (tr, Done skipped w') ->
  file_size w' archive = None ->
  exists msg,
    stage_type offline root_url t w = (tr, Fail (SystemSetupError msg) w')
    /\ (offline = true ->
        msg = "Cannot find " +:+ archive
              +:+ ". Please disable offline mode and retry again."
        /\ mentions msg "disable offline mode")
    /\ (offline = false ->
        msg = "Cannot download from " +:+ data_url root_url archive +:+ " to " +:+ archive
              +:+ ". Please verify that data are available at "
              +:+ data_url root_url archive +:+ " and check your internet connection."
        /\ mentions msg ("verify that data are available at "
                         +:+ data_url root_url archive)
        /\ mentions msg "check your internet connection").
Proof.
  intros Ha Hne Hstep Hfile.
  assert (skipped = false) as ->.
  { destruct skipped; [|reflexivity].
    apply download_step_skipped in Hstep as [-> (n & Hn & _)]. congruence. }
  assert (forall e,
    verify_download offline (data_url root_url archive) archive
      (compressed_size_in_bytes t) w' = ([], Fail e w') ->
    stage_type offline root_url t w = (tr, Fail e w')) as Hrun.
  { intros e He. eapply stage_type_after_download; eauto. }
  unfold verify_download, isfile, ask, mbind', mraise in Hrun.
  rewrite Hfile in Hrun. simpl in Hrun.
  destruct offline; simpl in Hrun; eexists; (split; [apply Hrun; reflexivity|]);
    split; intros [=]; split; try reflexivity.
  - do 2 apply mentions_skip. reflexivity.
  - split.
    + do 4 apply mentions_skip. apply (mentions_skip ". Please ").
      apply (mentions_here_app "verify that data are available at "
               (data_url root_url archive) " and check your internet connection.").
    + do 6 apply mentions_skip. reflexivity.
Qed.

End StagerFacts.

(** ** The track repository *)

Section RepositoryFacts.
Context {RT : PyRuntime} {World : Type} {GIT : GitIO World}.
Import Repository.

(** C8.  With a remote, online, and no remote branch for the
    distribution version: when a local branch matches, [_update] logs the
    fallback notice, checks the local branch out and returns; when no
    local branch matches either, it logs the notice and fails with a
    setup error. *)
Theorem update_falls_back_to_local (self : TrackRepository) (version : json)
    (w w1 w2 : World) (remote_branches local_branches : list string) :
  remote self = true ->
  offline self = false ->
  git_branches (tracks_dir self) true w = Done remote_branches w1 ->
  found (versions_best_match remote_branches version) = None ->
  git_branches (tracks_dir self) false w1 = Done local_branches w2 ->
  (forall branch w3,
      found (versions_best_match local_branches version) = Some branch ->
      git_checkout (tracks_dir self) branch w2 = Done tt w3 ->
      _update self version w =
        ([LogWarn (fallback_notice version);
          LogInfo (checking_out self branch version);
          GitCheckout branch],
         Done tt w3))
  /\ (found (versions_best_match local_branches version) = None ->
      _update self version w =
        ([LogWarn (fallback_notice version)],
         Fail (SystemSetupError ("Cannot find track data for distribution version "
                                 +:+ Py.str version)) w2)).
Proof.
  intros Hremote Honline Hrb Hnone Hlb.
  split; [intros branch w3 Hfound Hco | intros Hfound];
    unfold _update, update_body, update_local, try_except, mbind', call, emit, mraise;
    rewrite Hremote, Honline; simpl;
    repeat (first [ rewrite Hrb | rewrite Hnone | rewrite Hlb
                  | rewrite Hfound | rewrite Hco ]; simpl);
    reflexivity.
Qed.

End RepositoryFacts.

(** ** The code on concrete inputs *)

Import Sample.

Example sample_ops_types :
  map (fun entry => (fst entry, Reader.op_type (snd entry))) sample_ops =
  [(JStr "index-append", JStr "Index");
   (JStr "merge", JStr "ForceMerge");
   (JStr "percolate", JStr "percolator-query")].
Proof. reflexivity. Qed.

(** C1.  A child of a parallel block that declares no defaults, itself
    declaring neither value, gets [None] for its warmup iterations and for
    its iterations, where the same task at the top level of the schedule
    gets 0 and 1. *)
Theorem parallel_child_defaults_are_none :
  Reader.parse_schedule_entry (JStr "geonames")
    (JObj [("parallel", JObj [("tasks", JList [JObj [("operation", JStr "index-append")]])])])
    sample_ops (JStr "append-only")
  = Ok (Reader.EParallel
          (Reader.mkParallel
             [Reader.mkTask index_append JNull JNull JNull (JInt 1) JNull] JNull))
  /\ Reader.parse_schedule_entry (JStr "geonames")
       (JObj [("operation", JStr "index-append")]) sample_ops (JStr "append-only")
     = Ok (Reader.ETask (Reader.mkTask index_append (JInt 0) JNull (JInt 1) (JInt 1) JNull)).
Proof. split; reflexivity. Qed.

(** A mandatory field missing from a document group named [docs], looked
    up as [_create_type] does, without an error context: the message names
    the track and the field, and not the document group. *)
Lemma r_missing_field_counterexample :
  Reader.missing (JObj [("name", JStr "docs")]) (Reader.path_keys (PStr "mapping")) = true
  /\ Reader._r (JStr "geonames") (JObj [("name", JStr "docs")]) (PStr "mapping") JNull
       true JNull
     = Raise (TrackSyntaxError
                "Track 'geonames' is invalid. Mandatory element 'mapping' is missing.")
  /\ Reader._create_type (JStr "geonames") (JObj [("name", JStr "docs")])
       "tracks/geonames" "data/geonames"
     = Raise (TrackSyntaxError
                "Track 'geonames' is invalid. Mandatory element 'mapping' is missing.")
  /\ ~ mentions "Track 'geonames' is invalid. Mandatory element 'mapping' is missing." "docs"
  /\ ~ mentions "Track 'geonames' is invalid. Mandatory element 'mapping' is missing."
         (Py.str JNull).
Proof.
  split; [reflexivity|]. split; [reflexivity|]. split; [reflexivity|].
  split; intros Hm; vm_compute in Hm; discriminate.
Qed.

Lemma r_missing_field_witness :
  Reader.missing (JObj [("name", JStr "append-only")])
    (Reader.path_keys (PStr "description")) = true
  /\ (exists msg,
        Reader._r (JStr "geonames") (JObj [("name", JStr "append-only")])
          (PStr "description") (JStr "append-only") true JNull
        = Raise (TrackSyntaxError msg)
        /\ mentions msg "geonames"
        /\ mentions msg "description"
        /\ mentions msg "append-only")
  /\ Reader._r (JStr "geonames") (JObj [("name", JStr "append-only")])
       (PStr "description") (JStr "append-only") false (JInt 7) = Ok (JInt 7).
Proof.
  split; [reflexivity|].
  destruct (r_missing_field (JStr "geonames") (JObj [("name", JStr "append-only")])
              (PStr "description") (JStr "append-only") JNull eq_refl)
    as [(msg & Hr & _ & Hname & Hpath & Hctx) _].
  split.
  - exists msg. repeat split; [exact Hr | exact Hname | exact Hpath | exact (Hctx eq_refl)].
  - exact (proj2 (r_missing_field (JStr "geonames") (JObj [("name", JStr "append-only")])
                    (PStr "description") (JStr "append-only") (JInt 7) eq_refl)).
Defined.

Lemma unknown_operation_witness :
  Py.lookup "operation" [("operation", JStr "search"); ("clients", JInt 2)]
  = Some (JStr "search")
  /\ Reader.ops_get (JStr "search") sample_ops = None
  /\ exists msg,
       mentions msg "append-only" /\ mentions msg "search"
       /\ Reader.parse_schedule_entry (JStr "geonames")
            (JObj [("operation", JStr "search"); ("clients", JInt 2)])
            sample_ops (JStr "append-only")
          = Raise (TrackSyntaxError msg)
       /\ Reader.parse_schedule_entry (JStr "geonames")
            (JObj [("parallel",
                    JObj [("tasks",
                           JList [JObj [("operation", JStr "merge")];
                                  JObj [("operation", JStr "search"); ("clients", JInt 2)]])])])
            sample_ops (JStr "append-only")
          = Raise (TrackSyntaxError msg).
Proof.
  split; [reflexivity|]. split; [reflexivity|].
  destruct (unknown_operation_is_syntax_error (JStr "geonames")
              [("operation", JStr "search"); ("clients", JInt 2)]
              sample_ops (JStr "append-only") (JStr "search") eq_refl eq_refl eq_refl)
    as (msg & Hch & Hop & _ & Htop & Hchild).
  exists msg. split; [exact Hch|]. split; [exact Hop|]. split; [exact (Htop eq_refl)|].
  refine (proj2 (Hchild
            [("parallel",
              JObj [("tasks",
                     JList [JObj [("operation", JStr "merge")];
                            JObj [("operation", JStr "search"); ("clients", JInt 2)]])])]
            [("tasks",
              JList [JObj [("operation", JStr "merge")];
                     JObj [("operation", JStr "search"); ("clients", JInt 2)]])]
            [JObj [("operation", JStr "merge")]] [] eq_refl eq_refl _)).
  constructor; [|constructor]. eexists. reflexivity.
Defined.

Lemma missing_operation_key_witness :
  Py.lookup "operation" [("name", JStr "index-append"); ("clients", JInt 8)] = None
  /\ Reader.parse_schedule_entry (JStr "geonames")
       (JObj [("name", JStr "index-append"); ("clients", JInt 8)])
       sample_ops (JStr "append-only")
     = Raise (KeyError "operation").
Proof.
  split; [reflexivity|].
  exact (proj1 (proj2 (missing_operation_key_is_key_error (JStr "geonames")
                         [("name", JStr "index-append"); ("clients", JInt 8)] eq_refl))
           sample_ops (JStr "append-only") eq_refl).
Defined.

Lemma operation_type_resolution_witness :
  (exists ops',
      Reader.parse_operation (JStr "geonames") []
        (JObj [("name", JStr "merge"); ("operation-type", JStr "Force-Merge")]) = Ok ops'
      /\ option_map Reader.op_type (Reader.ops_get (JStr "merge") ops')
         = Some (JStr "ForceMerge"))
  /\ (exists ops',
        Reader.parse_operation (JStr "geonames") []
          (JObj [("name", JStr "percolate"); ("operation-type", JStr "percolator-query")])
        = Ok ops'
        /\ option_map Reader.op_type (Reader.ops_get (JStr "percolate") ops')
           = Some (JStr "percolator-query")).
Proof.
  split.
  - destruct (operation_type_resolution (TM := track_module) (JStr "geonames")
                [("name", JStr "merge"); ("operation-type", JStr "Force-Merge")] []
                (JStr "merge") "Force-Merge" eq_refl eq_refl eq_refl (fun _ => eq_refl))
      as (op_type & ops' & Hp & Hg & Hty).
    exists ops'. split; [exact Hp|]. rewrite Hg. simpl. f_equal.
    destruct Hty as [(kind & Hin & Hnorm & ->)|[Hno _]].
    + simpl in Hin.
      destruct Hin as [<-|[<-|[<-|[<-|[<-|[]]]]]]; try discriminate Hnorm; reflexivity.
    + exfalso. apply (Hno "ForceMerge"); [simpl; auto | reflexivity].
  - destruct (operation_type_resolution (TM := track_module) (JStr "geonames")
                [("name", JStr "percolate"); ("operation-type", JStr "percolator-query")] []
                (JStr "percolate") "percolator-query" eq_refl eq_refl eq_refl
                (fun _ => eq_refl))
      as (op_type & ops' & Hp & Hg & Hty).
    exists ops'. split; [exact Hp|]. rewrite Hg. simpl. f_equal.
    destruct Hty as [(kind & Hin & Hnorm & ->)|[_ ->]]; [|reflexivity].
    simpl in Hin.
    destruct Hin as [<-|[<-|[<-|[<-|[<-|[]]]]]]; discriminate Hnorm.
Defined.

(** A document group that declares its archive and no size. *)
Lemma create_type_sizes_counterexample :
  exists t,
    Reader._create_type (JStr "geonames")
      (JObj [("name", JStr "docs"); ("mapping", JStr "mappings.json");
             ("documents", JStr "documents.json.bz2")])
      "tracks/geonames" "data/geonames" = Ok t
    /\ Reader.document_archive t = Some "data/geonames/documents.json.bz2"
    /\ Reader.compressed_size_in_bytes t = JNull
    /\ Reader.uncompressed_size_in_bytes t = JNull.
Proof. eexists. split; [reflexivity|]. repeat split. Qed.

Lemma create_type_sizes_witness :
  exists t,
    Reader._create_type (JStr "geonames")
      (JObj [("name", JStr "docs"); ("mapping", JStr "mappings.json");
             ("documents", JStr "documents.json.bz2");
             ("compressed-bytes", JInt 100); ("uncompressed-bytes", JInt 2500)])
      "tracks/geonames" "data/geonames" = Ok t
    /\ Reader.document_archive t <> None
    /\ Reader.compressed_size_in_bytes t = JInt 100
    /\ Reader.uncompressed_size_in_bytes t = JInt 2500.
Proof.
  eexists. split; [reflexivity|].
  pose proof (create_type_sizes (JStr "geonames")
                [("name", JStr "docs"); ("mapping", JStr "mappings.json");
                 ("documents", JStr "documents.json.bz2");
                 ("compressed-bytes", JInt 100); ("uncompressed-bytes", JInt 2500)]
                "tracks/geonames" "data/geonames" _ eq_refl) as (Hc & Hu & Ha & _).
  split; [apply Ha; reflexivity|]. split; [exact Hc | exact Hu].
Defined.

Lemma stage_type_idempotent_witness :
  file_size staged_world "data/geonames/documents.json.bz2" = Some 100
  /\ file_size staged_world "data/geonames/documents.json" = Some 2500
  /\ Stager.stage_type false geonames_url documents staged_world =
       ([LogInfo "[data/geonames/documents.json.bz2] already exists locally. Skipping download.";
         PrepareFileOffsetTable "data/geonames/documents.json"],
        Done tt (write "data/geonames/documents.json.offset" 0 staged_world))
  /\ Forall (fun e => is_transfer e = false)
       (fst (Stager.stage_type false geonames_url documents staged_world)).
Proof.
  split; [reflexivity|]. split; [reflexivity|].
  refine (stage_type_idempotent (TM := track_module) false geonames_url documents
            "data/geonames/documents.json.bz2" "data/geonames/documents.json" ".bz2"
            100 2500 staged_world eq_refl _ eq_refl eq_refl eq_refl eq_refl eq_refl).
  discriminate.
Defined.

Lemma download_size_mismatch_witness :
  exists tr w' msg,
    Stager.download_step false (Stager.data_url geonames_url "data/geonames/documents.json.bz2")
      "data/geonames/documents.json.bz2" (JInt 100) truncating_world = (tr, Done false w')
    /\ file_size w' "data/geonames/documents.json.bz2" = Some 90
    /\ Stager.stage_type false geonames_url documents truncating_world
       = (tr, Fail (DataError msg) w')
    /\ mentions msg "90" /\ mentions msg "100"
    /\ Forall (fun e => is_decompression e = false) tr.
Proof.
  eexists. eexists.
  destruct (download_size_mismatch (TM := track_module) false geonames_url documents
              "data/geonames/documents.json.bz2" 100 90 truncating_world _ _ false
              eq_refl ltac:(discriminate) eq_refl eq_refl eq_refl ltac:(discriminate))
    as (msg & Hrun & Hmsg & Ha & He & Htr).
  exists msg. split; [reflexivity|]. split; [reflexivity|].
  split; [exact Hrun|]. split; [exact Ha|]. split; [exact He | exact Htr].
Defined.

Lemma download_missing_archive_witness :
  (exists msg,
      Stager.stage_type true geonames_url documents empty_world
      = ([], Fail (SystemSetupError msg) empty_world)
      /\ mentions msg "disable offline mode")
  /\ (exists tr msg,
        Stager.stage_type false geonames_url documents empty_world
        = (tr, Fail (SystemSetupError msg) empty_world)
        /\ mentions msg "verify that data are available at http://benchmarks.example.org/geonames/documents.json.bz2"
        /\ mentions msg "check your internet connection").
Proof.
  split.
  - destruct (download_missing_archive (TM := track_module) true geonames_url documents
                "data/geonames/documents.json.bz2" empty_world empty_world [] false
                eq_refl ltac:(discriminate) eq_refl eq_refl)
      as (msg & Hrun & Hoff & _).
    exists msg. split; [exact Hrun | exact (proj2 (Hoff eq_refl))].
  - eexists.
    destruct (download_missing_archive (TM := track_module) false geonames_url documents
                "data/geonames/documents.json.bz2" empty_world empty_world _ false
                eq_refl ltac:(discriminate) eq_refl eq_refl)
      as (msg & Hrun & _ & Hon).
    exists msg. split; [exact Hrun|]. destruct (Hon eq_refl) as (_ & Hv & Hc).
    split; [exact Hv | exact Hc].
Defined.

Lemma update_falls_back_to_local_witness :
  Repository._update geonames_repository (JStr "5") local_only =
    ([LogWarn "Could not find track data remotely for distribution version [5]. Trying to find track data locally.";
      LogInfo "Checking out [5] in [benchmarks/tracks/default] for distribution version [5].";
      GitCheckout "5"],
     Done tt (mkCheckout ["1"; "2"] ["2"; "5"] (Some "5")))
  /\ Repository._update geonames_repository (JStr "5") no_match =
       ([LogWarn "Could not find track data remotely for distribution version [5]. Trying to find track data locally."],
        Fail (SystemSetupError "Cannot find track data for distribution version 5") no_match).
Proof.
  split.
  - exact (proj1 (update_falls_back_to_local geonames_repository (JStr "5")
                    local_only local_only local_only ["1"; "2"] ["2"; "5"]
                    eq_refl eq_refl eq_refl eq_refl eq_refl)
             "5" _ eq_refl eq_refl).
  - exact (proj2 (update_falls_back_to_local geonames_repository (JStr "5")
                    no_match no_match no_match ["1"; "2"] ["2"]
                    eq_refl eq_refl eq_refl eq_refl eq_refl)
             eq_refl).
Defined.

(** * More properties of the loader *)

(** ** The field lookup, the operations table and the schedule *)

Section ReaderMore.
Context {RT : PyRuntime} {TM : Reader.TrackModule}.
Import Reader.
Variable name : json.

Lemma walk_non_mapping (path : list string) : forall root,
  non_mapping root path = true -> walk root path = Raise TypeError.
Proof.
  induction path as [|k rest IH]; intros root Hn; simpl in Hn; [discriminate|].
  destruct root; simpl; try reflexivity.
  destruct (Py.lookup k kvs) as [v|]; simpl; [apply IH, Hn | discriminate].
Qed.

Lemma walk_cases (path : list string) : forall root,
  (exists v, walk root path = Ok v)
  \/ (missing root path = true /\ exists k, walk root path = Raise (KeyError k))
  \/ (non_mapping root path = true /\ walk root path = Raise TypeError).
Proof.
  induction path as [|k rest IH]; intros root; simpl.
  - left. eauto.
  - destruct root; simpl; try (right; right; split; reflexivity).
    destruct (Py.lookup k kvs) as [v|]; simpl.
    + apply IH.
    + right. left. eauto.
Qed.

(** X1.  A lookup whose path runs into a value that is not a mapping
    raises [TypeError], whether the field is mandatory or optional and
    whatever the default and the error context: the default of an optional
    field is not used and no syntax error is built. *)
Theorem r_non_mapping_type_error (root : json) (path : path_arg) :
  non_mapping root (path_keys path) = true ->
  forall error_ctx mandatory default_value,
    _r name root path error_ctx mandatory default_value = Raise TypeError.
Proof.
  intros Hn error_ctx mandatory default_value.
  unfold _r. rewrite (walk_non_mapping _ _ Hn). reflexivity.
Qed.

(** X2.  The only exceptions [_r] raises: [TypeError], on a path that runs
    into a value that is not a mapping, and, for a mandatory field only, a
    track syntax error on a path with a missing component.  No [KeyError]
    leaves [_r]. *)
Theorem r_raises_only (root : json) (path : path_arg) (error_ctx : json)
    (mandatory : bool) (default_value : json) (e : exn) :
  _r name root path error_ctx mandatory default_value = Raise e ->
  (e = TypeError /\ non_mapping root (path_keys path) = true)
  \/ (mandatory = true /\ missing root (path_keys path) = true
      /\ exists msg, e = TrackSyntaxError msg).
Proof.
  unfold _r.
  destruct (walk_cases (path_keys path) root) as [[v Hw]|[[Hm [k Hw]]|[Hn Hw]]];
    rewrite Hw.
  - discriminate.
  - destruct mandatory; [|discriminate].
    destruct (Py.truthy error_ctx); unfold _error; intros [= <-]; right; eauto.
  - intros [= <-]. left. auto.
Qed.

Lemma key_eq_sym (a b : json) : Py.key_eq a b = Py.key_eq b a.
Proof.
  destruct a as [|[]| | | |], b as [|[]| | | |];
    cbv beta iota delta [Py.key_eq Py.as_int];
    try reflexivity; try apply Z.eqb_sym; apply String.eqb_sym.
Qed.

Lemma key_eq_trans (a b c : json) :
  Py.key_eq a b = true -> Py.key_eq b c = true -> Py.key_eq a c = true.
Proof.
  destruct a as [|[]| | | |], b as [|[]| | | |], c as [|[]| | | |];
    cbv beta iota delta [Py.key_eq Py.as_int];
    intros Hab Hbc; try discriminate; try reflexivity;
    repeat match goal with
           | H : (_ =? _)%Z = true |- _ => apply Z.eqb_eq in H
           | H : String.eqb _ _ = true |- _ => apply String.eqb_eq in H
           end;
    subst; try discriminate;
    first [ apply Z.eqb_refl | apply String.eqb_refl | apply Z.eqb_eq; congruence ].
Qed.

Lemma ops_get_set_other (m n : json) (o : Operation) (ops : ops_table) :
  Py.key_eq m n = false -> ops_get m (ops_set n o ops) = ops_get m ops.
Proof.
  intros Hmn. induction ops as [|[k' o'] rest IH]; simpl.
  - rewrite Hmn. reflexivity.
  - destruct (Py.key_eq n k') eqn:En; simpl.
    + destruct (Py.key_eq m k') eqn:Em; [|reflexivity].
      rewrite key_eq_sym in En.
      rewrite (key_eq_trans m k' n Em En) in Hmn. discriminate.
    + destruct (Py.key_eq m k'); [reflexivity | exact IH].
Qed.

Lemma ops_get_set_same (m n : json) (o : Operation) (ops : ops_table) :
  Py.key_eq m n = true -> ops_get m (ops_set n o ops) = Some o.
Proof.
  intros Hmn. induction ops as [|[k' o'] rest IH]; simpl.
  - rewrite Hmn. reflexivity.
  - destruct (Py.key_eq n k') eqn:En; simpl.
    + rewrite (key_eq_trans m n k' Hmn En). reflexivity.
    + destruct (Py.key_eq m k') eqn:Em; [|exact IH].
      rewrite key_eq_sym in Hmn.
      rewrite (key_eq_trans n m k' Hmn Em) in En. discriminate.
Qed.


(** What a successful pass of the loop of [parse_operations] has done. *)
Lemma parse_operation_ok (ops ops' : ops_table) (op_spec : json) :
  parse_operation name ops op_spec = Ok ops' ->
  exists kvs n op_type,
    op_spec = JObj kvs
    /\ Py.lookup "name" kvs = Some n
    /\ Py.hashable n = true
    /\ ops' = ops_set n (mkOperation n op_type op_spec (Py.get "param-source" kvs JNull)) ops.
Proof.
  unfold parse_operation. destruct op_spec as [| | | | |kvs]; try discriminate.
  rewrite r_key. destruct (Py.lookup "name" kvs) as [n|] eqn:En; simpl; [|discriminate].
  rewrite r_key.
  destruct (Py.lookup "operation-type" kvs) as [ty|]; simpl; [|discriminate].
  destruct (match from_hyphenated_string ty with
            | Ok k => Ok (JStr k)
            | Raise (KeyError _) => Ok ty
            | Raise e => Raise e
            end) as [op_type|]; simpl; [|discriminate].
  rewrite r_optional. simpl.
  destruct (operation_invalid n op_type (JObj kvs) (Py.get "param-source" kvs JNull));
    [discriminate|].
  destruct (Py.hashable n) eqn:Hh; [|discriminate].
  intros [= <-]. exists kvs, n, op_type. auto.
Qed.

Lemma parse_operations_from_app (ops : ops_table) (a b : list json) :
  parse_operations_from name ops (a ++ b) =
  let* ops1 := parse_operations_from name ops a in parse_operations_from name ops1 b.
Proof.
  revert ops. induction a as [|x a IH]; intros ops; simpl; [reflexivity|].
  destruct (parse_operation name ops x); simpl; [apply IH | reflexivity].
Qed.

Lemma parse_operations_from_origin (specs : list json) : forall ops ops',
  parse_operations_from name ops specs = Ok ops' ->
  forall m o, ops_get m ops' = Some o ->
    ops_get m ops = Some o
    \/ (Py.key_eq m (op_name o) = true /\ In (op_params o) specs
        /\ Py.getitem (op_params o) "name" = Ok (op_name o)).
Proof.
  induction specs as [|spec rest IH]; intros ops ops' Hp m o Hget; simpl in Hp.
  - injection Hp as <-. left. exact Hget.
  - destruct (parse_operation name ops spec) as [ops1|] eqn:E1; simpl in Hp; [|discriminate].
    destruct (IH _ _ Hp m o Hget) as [H1|(Hk & Hin & Hn)].
    + apply parse_operation_ok in E1 as (kvs & n & ty & -> & Hname & Hh & ->).
      destruct (Py.key_eq m n) eqn:Hmn.
      * rewrite (ops_get_set_same _ _ _ _ Hmn) in H1. injection H1 as <-. simpl.
        right. split; [exact Hmn|]. split; [left; reflexivity|]. rewrite Hname. reflexivity.
      * rewrite (ops_get_set_other _ _ _ _ Hmn) in H1. left. exact H1.
    + right. split; [exact Hk|]. split; [right; exact Hin | exact Hn].
Qed.

(** X4.  Whatever is found in the table that [parse_operations] builds
    was defined by one of the operation specifications: the operation found
    under a key carries that specification as its parameters and a name
    equal to the key, which is the name the specification declares. *)
Theorem parse_operations_origin (ops_specs : json) (ops : ops_table) (m : json)
    (o : Operation) :
  parse_operations name ops_specs = Ok ops ->
  ops_get m ops = Some o ->
  exists op_specs,
    Py.iter ops_specs = Ok op_specs
    /\ In (op_params o) op_specs
    /\ Py.getitem (op_params o) "name" = Ok (op_name o)
    /\ Py.key_eq m (op_name o) = true.
Proof.
  unfold parse_operations.
  destruct (Py.iter ops_specs) as [op_specs|]; simpl; [|discriminate].
  intros Hp Hget. exists op_specs. split; [reflexivity|].
  destruct (parse_operations_from_origin _ _ _ Hp m o Hget) as [H0|(Hk & Hin & Hn)].
  - discriminate.
  - auto.
Qed.

Lemma parse_operations_from_keeps (n : json) (post : list json) : forall ops ops',
  parse_operations_from name ops post = Ok ops' ->
  Forall (fun spec => forall n', Py.getitem spec "name" = Ok n' -> Py.key_eq n n' = false)
         post ->
  ops_get n ops' = ops_get n ops.
Proof.
  induction post as [|spec rest IH]; intros ops ops' Hp Hpost; simpl in Hp.
  - injection Hp as <-. reflexivity.
  - destruct (parse_operation name ops spec) as [ops1|] eqn:E1; simpl in Hp; [|discriminate].
    inversion Hpost as [|? ? Hspec Hrest]; subst.
    rewrite (IH _ _ Hp Hrest).
    apply parse_operation_ok in E1 as (kvs & n' & ty & -> & Hname & Hh & ->).
    apply ops_get_set_other, Hspec. simpl. rewrite Hname. reflexivity.
Qed.

(** X5.  An operation name defined more than once resolves to its last
    definition: when no later specification declares an equal name, the
    table gives, under the name, the operation built from this
    specification. *)
Theorem last_definition_wins (pre post : list json) (kvs : list (string * json))
    (n : json) (ops : ops_table) :
  parse_operations name (JList (pre ++ JObj kvs :: post)) = Ok ops ->
  Py.lookup "name" kvs = Some n ->
  Forall (fun spec => forall n', Py.getitem spec "name" = Ok n' -> Py.key_eq n n' = false)
         post ->
  exists o, ops_get n ops = Some o /\ op_name o = n /\ op_params o = JObj kvs.
Proof.
  unfold parse_operations. simpl. rewrite parse_operations_from_app.
  destruct (parse_operations_from name [] pre) as [ops1|]; simpl; [|discriminate].
  destruct (parse_operation name ops1 (JObj kvs)) as [ops2|] eqn:E2; simpl; [|discriminate].
  intros Hp Hname Hpost.
  rewrite (parse_operations_from_keeps n post _ _ Hp Hpost).
  apply parse_operation_ok in E2 as (kvs' & n' & ty & [= <-] & Hname' & Hh & ->).
  rewrite Hname in Hname'. injection Hname' as <-.
  eexists. split; [apply ops_get_set, Hh|]. split; reflexivity.
Qed.

(** X6.  A top-level task of a schedule whose operation is known gets its
    own values where it declares them and otherwise: 0 warmup iterations,
    1 iteration, 1 client, no warmup time period and no target
    throughput. *)
Theorem top_level_task_values (kvs : list (string * json)) (ops : ops_table)
    (challenge op_name : json) (op : Operation) :
  Py.lookup "parallel" kvs = None ->
  Py.lookup "operation" kvs = Some op_name ->
  Py.hashable op_name = true ->
  ops_get op_name ops = Some op ->
  parse_schedule_entry name (JObj kvs) ops challenge =
  Ok (ETask (mkTask op
               (Py.get "warmup-iterations" kvs (JInt 0))
               (Py.get "warmup-time-period" kvs JNull)
               (Py.get "iterations" kvs (JInt 1))
               (Py.get "clients" kvs (JInt 1))
               (Py.get "target-throughput" kvs JNull))).
Proof.
  intros Hpar Hop Hh Hget. unfold parse_schedule_entry, parse_task_top. simpl.
  rewrite Hpar. simpl.
  rewrite (parse_task_known name kvs ops challenge _ _ op_name op Hop Hh Hget).
  reflexivity.
Qed.

Lemma parse_task_inv (task_spec : json) (ops : ops_table)
    (challenge default_warmup default_iterations : json) (t : Task) :
  parse_task name task_spec ops challenge default_warmup default_iterations = Ok t ->
  exists kvs op_name,
    task_spec = JObj kvs
    /\ Py.lookup "operation" kvs = Some op_name
    /\ ops_get op_name ops = Some (operation t)
    /\ warmup_iterations t = Py.get "warmup-iterations" kvs default_warmup
    /\ iterations t = Py.get "iterations" kvs default_iterations
    /\ clients t = Py.get "clients" kvs (JInt 1).
Proof.
  unfold parse_task. destruct task_spec as [| | | | |kvs]; simpl; try discriminate.
  destruct (Py.lookup "operation" kvs) as [op_name|] eqn:Eo; simpl; [|discriminate].
  destruct (Py.hashable op_name); simpl; [|discriminate].
  destruct (ops_get op_name ops) as [op|] eqn:Eg; [|discriminate].
  rewrite !r_optional. simpl. intros [= <-]. exists kvs, op_name. simpl. auto 10.
Qed.

(** X7.  A parallel block that is parsed has one task per element of
    [tasks], in order; each task refers to the operation the table holds
    under the name it declares; its client count is its own or 1, whatever
    the block declares; the block's own [clients] is kept on the block,
    [None] when it declares none. *)
Theorem parallel_block_tasks (bkvs : list (string * json)) (specs : list json)
    (ops : ops_table) (challenge : json) (p : Parallel) :
  Py.lookup "tasks" bkvs = Some (JList specs) ->
  parse_parallel name (JObj bkvs) ops challenge = Ok p ->
  parallel_clients p = Py.get "clients" bkvs JNull
  /\ length (tasks p) = length specs
  /\ Forall2 (fun spec t =>
                exists kvs op_name,
                  spec = JObj kvs
                  /\ Py.lookup "operation" kvs = Some op_name
                  /\ ops_get op_name ops = Some (operation t)
                  /\ clients t = Py.get "clients" kvs (JInt 1))
             specs (tasks p).
Proof.
  intros Ht. rewrite (parse_parallel_tasks name _ _ _ _ Ht).
  destruct (rmap _ specs) as [ts|] eqn:Er; simpl; [|discriminate].
  intros [= <-]. simpl. apply rmap_ok in Er.
  split; [reflexivity|]. split.
  - symmetry. eapply Forall2_length, Er.
  - eapply Forall2_impl; [exact Er|]. intros spec t Hp.
    apply parse_task_inv in Hp as (kvs & op_name & -> & Ho & Hg & _ & _ & Hc).
    exists kvs, op_name. auto.
Qed.

(** X8.  A challenge that is parsed keeps its schedule in order: one entry
    per element of [schedule], each the parse of that element under the
    challenge's name, a parallel block for an element with the key
    [parallel] and a task for any other. *)
Theorem challenge_schedule_in_order (kvs : list (string * json)) (entries : list json)
    (ops : ops_table) (c : Challenge) :
  parse_challenge name ops (JObj kvs) = Ok c ->
  Py.lookup "schedule" kvs = Some (JList entries) ->
  Py.lookup "name" kvs = Some (challenge_name c)
  /\ index_settings c = Py.get "index-settings" kvs JNull
  /\ length (schedule c) = length entries
  /\ Forall2 (fun entry parsed =>
                parse_schedule_entry name entry ops (challenge_name c) = Ok parsed
                /\ (Py.contains "parallel" entry = Ok true <->
                    exists p, parsed = EParallel p))
             entries (schedule c).
Proof.
  unfold parse_challenge. rewrite r_key.
  destruct (Py.lookup "name" kvs) as [n|]; simpl; [|discriminate].
  rewrite r_key.
  destruct (Py.lookup "description" kvs) as [d|]; simpl;
    [|destruct (Py.truthy n); discriminate].
  rewrite r_optional. simpl. rewrite r_key.
  intros Hp Hs. rewrite Hs in Hp. simpl in Hp.
  destruct (rmap _ entries) as [sched|] eqn:Er; simpl in Hp; [|discriminate].
  injection Hp as <-. simpl. apply rmap_ok in Er.
  split; [reflexivity|]. split; [reflexivity|]. split.
  - symmetry. eapply Forall2_length, Er.
  - eapply Forall2_impl; [exact Er|]. intros entry parsed Hp. split; [exact Hp|].
    unfold parse_schedule_entry in Hp.
    destruct (Py.contains "parallel" entry) as [[]|]; simpl in Hp; try discriminate.
    + destruct (Py.getitem entry "parallel"); simpl in Hp; [|discriminate].
      destruct (parse_parallel name a ops n); simpl in Hp; [|discriminate].
      injection Hp as <-. split; eauto.
    + destruct (parse_task_top name entry ops n); simpl in Hp; [|discriminate].
      injection Hp as <-. split; [discriminate | intros [p Hp]; discriminate].
Qed.

(** X9.  When [_create_challenges] returns, there is one challenge per
    element of [challenges], in order, each parsed against the table built
    from [operations]: a track whose operations cannot be parsed has no
    challenges. *)
Theorem create_challenges_in_order (kvs : list (string * json)) (specs : list json)
    (cs : list Challenge) :
  _create_challenges name (JObj kvs) = Ok cs ->
  Py.lookup "challenges" kvs = Some (JList specs) ->
  exists ops_specs ops,
    Py.lookup "operations" kvs = Some ops_specs
    /\ parse_operations name ops_specs = Ok ops
    /\ length cs = length specs
    /\ Forall2 (fun spec c => parse_challenge name ops spec = Ok c) specs cs.
Proof.
  unfold _create_challenges. rewrite r_key.
  destruct (Py.lookup "operations" kvs) as [ops_specs|] eqn:Es; simpl; [|discriminate].
  destruct (parse_operations name ops_specs) as [ops|] eqn:Eo; simpl; [|discriminate].
  rewrite r_key. intros Hp Hc. rewrite Hc in Hp. simpl in Hp.
  apply rmap_ok in Hp. exists ops_specs, ops.
  split; [reflexivity|]. split; [exact Eo|]. split; [|exact Hp].
  symmetry. eapply Forall2_length, Hp.
Qed.

(** X10.  A challenge with a non-empty name that lacks its description or
    its schedule is rejected with a syntax error that names the challenge
    and the missing field. *)
Theorem challenge_missing_field (kvs : list (string * json)) (ops : ops_table)
    (n : json) :
  Py.lookup "name" kvs = Some n ->
  Py.truthy n = true ->
  Py.lookup "description" kvs = None \/ Py.lookup "schedule" kvs = None ->
  exists msg field,
    parse_challenge name ops (JObj kvs) = Raise (TrackSyntaxError msg)
    /\ Py.lookup field kvs = None
    /\ (field = "description" \/ field = "schedule")
    /\ mentions msg (Py.str n)
    /\ mentions msg field.
Proof.
  intros Hn Ht Hmiss. unfold parse_challenge. rewrite r_key, Hn. simpl. rewrite r_key.
  destruct (Py.lookup "description" kvs) as [d|] eqn:Ed; simpl.
  - destruct Hmiss as [Hd|Hs]; [discriminate|].
    rewrite r_optional. simpl. rewrite r_key, Hs, Ht. unfold _error.
    eexists. exists "schedule". split; [reflexivity|].
    split; [exact Hs|]. split; [right; reflexivity|]. split; names.
  - rewrite Ht. unfold _error.
    eexists. exists "description". split; [reflexivity|].
    split; [exact Ed|]. split; [left; reflexivity|]. split; names.
Qed.

(** X11.  A document group with a name and a mapping.  Without
    [documents], or with an empty one, it is built without document file
    and archive; with a non-empty one, the archive is the data directory
    joined with it and the document file the data directory joined with
    what [io.splitext] leaves of it.  The document count defaults to 0. *)
Theorem create_type_paths (kvs : list (string * json)) (mapping_dir data_dir : string)
    (n m : json) :
  Py.lookup "name" kvs = Some n ->
  Py.lookup "mapping" kvs = Some m ->
  (Py.truthy (Py.get "documents" kvs JNull) = false ->
   _create_type name (JObj kvs) mapping_dir data_dir =
   Ok (mkType n (mapping_dir +:+ "/" +:+ Py.str m) None None
         (Py.get "document-count" kvs (JInt 0))
         (Py.get "compressed-bytes" kvs JNull)
         (Py.get "uncompressed-bytes" kvs JNull)))
  /\ (forall basename extension,
        Py.truthy (Py.get "documents" kvs JNull) = true ->
        io_splitext (Py.get "documents" kvs JNull) = Ok (basename, extension) ->
        _create_type name (JObj kvs) mapping_dir data_dir =
        Ok (mkType n (mapping_dir +:+ "/" +:+ Py.str m)
              (Some (data_dir +:+ "/" +:+ basename))
              (Some (data_dir +:+ "/" +:+ Py.str (Py.get "documents" kvs JNull)))
              (Py.get "document-count" kvs (JInt 0))
              (Py.get "compressed-bytes" kvs JNull)
              (Py.get "uncompressed-bytes" kvs JNull))).
Proof.
  intros Hn Hm. split.
  - intros Hd. unfold _create_type. rewrite r_optional. simpl. rewrite Hd. simpl.
    rewrite r_key, Hn. simpl. rewrite r_key, Hm. simpl.
    rewrite !r_optional. reflexivity.
  - intros basename extension Hd Hs. unfold _create_type. rewrite r_optional. simpl.
    rewrite Hd, Hs. simpl.
    rewrite r_key, Hn. simpl. rewrite r_key, Hm. simpl.
    rewrite !r_optional. reflexivity.
Qed.

End ReaderMore.

(** ** Indices and the whole track *)

Section SpecificationMore.
Context {RT : PyRuntime} {TM : Reader.TrackModule} {DD : DocumentData}.
Import Reader Specification.
Variable name : json.

Lemma any_valid_existsb (ts : list Type_) :
  any_valid_document_data ts = existsb has_valid_document_data ts.
Proof.
  induction ts as [|t ts IH]; simpl; [reflexivity|].
  destruct (has_valid_document_data t); [reflexivity | exact IH].
Qed.

(** X12.  An index that is built has one document group per element of
    [types], in order, and a warning is printed on the console exactly when
    none of them has document data; the index is built all the same, also
    from an empty list of types. *)
Theorem create_index_warns (kvs : list (string * json)) (type_specs : list json)
    (mapping_dir data_dir : string) (warnings : list event) (index : Index) :
  Py.lookup "types" kvs = Some (JList type_specs) ->
  _create_index name (JObj kvs) mapping_dir data_dir = (warnings, Ok index) ->
  Py.lookup "name" kvs = Some (index_name index)
  /\ Forall2 (fun type_spec type =>
                _create_type name type_spec mapping_dir data_dir = Ok type)
             type_specs (types index)
  /\ ((exists type, In type (types index) /\ has_valid_document_data type = true) ->
      warnings = [])
  /\ ((forall type, In type (types index) -> has_valid_document_data type = false) ->
      warnings = [ConsoleWarn (no_documents_warning (index_name index))]).
Proof.
  intros Ht. unfold _create_index. rewrite r_key.
  destruct (Py.lookup "name" kvs) as [n|]; simpl; [|intros [=]].
  rewrite r_key, Ht. simpl.
  destruct (rmap _ type_specs) as [ts|] eqn:Er; simpl; [|intros [=]].
  intros [= <- <-]. simpl. apply rmap_ok in Er.
  split; [reflexivity|]. split; [exact Er|].
  rewrite any_valid_existsb. split.
  - intros (t & Hin & Hv).
    assert (existsb has_valid_document_data ts = true) as ->; [|reflexivity].
    apply existsb_exists. eauto.
  - intros Hnone.
    assert (existsb has_valid_document_data ts = false) as ->; [|reflexivity].
    apply not_true_iff_false. intros He.
    apply existsb_exists in He as (t & Hin & Hv). rewrite (Hnone t Hin) in Hv. discriminate.
Qed.




(** X14.  A track that is read carries the name it was read under, the
    three fields of [meta], one index per element of [indices] and the
    challenges that [_create_challenges] builds from the specification. *)
Theorem call_builds_track (kvs meta : list (string * json)) (index_specs : list json)
    (mapping_dir data_dir : string) (warnings : list event) (t : Track) :
  Py.lookup "meta" kvs = Some (JObj meta) ->
  Py.lookup "indices" kvs = Some (JList index_specs) ->
  __call__ name (JObj kvs) mapping_dir data_dir = (warnings, Ok t) ->
  track_name t = name
  /\ Py.lookup "short-description" meta = Some (short_description t)
  /\ Py.lookup "description" meta = Some (description t)
  /\ Py.lookup "data-url" meta = Some (source_root_url t)
  /\ create_indices name index_specs mapping_dir data_dir = (warnings, Ok (indices t))
  /\ _create_challenges name (JObj kvs) = Ok (challenges t).
Proof.
  intros Hmeta Hidx. unfold __call__, _r. simpl. rewrite Hmeta. simpl.
  destruct (Py.lookup "short-description" meta) as [sd|]; simpl; [|intros [=]].
  destruct (Py.lookup "description" meta) as [d|]; simpl; [|intros [=]].
  destruct (Py.lookup "data-url" meta) as [u|]; simpl; [|intros [=]].
  rewrite Hidx. simpl.
  destruct (create_indices name index_specs mapping_dir data_dir) as [w [ixs|e]];
    [|intros [=]].
  destruct (_create_challenges name (JObj kvs)) as [cs|] eqn:Ec; [|intros [=]].
  intros [= <- <-]. simpl. auto 10.
Qed.

End SpecificationMore.

(** ** More of the asset stager *)

Section StagerMore.
Context {RT : PyRuntime} {TM : Reader.TrackModule} {World : Type} {IO : StagerIO World}.
Import Reader Stager.


Lemma verify_download_cases (offline : bool) (url local_path : string) (size : json)
    (w : World) :
  fst (verify_download offline url local_path size w) = []
  /\ outcome_world (snd (verify_download offline url local_path size w)) = w
  /\ (forall e w', snd (verify_download offline url local_path size w) = Fail e w' ->
                   is_URLError e = false)
  /\ (forall b w', snd (verify_download offline url local_path size w) = Done b w' ->
                   b = true
                   /\ exists n, file_size w local_path = Some n /\ Py.int_eq n size = true).
Proof.
  unfold verify_download, isfile, getsize, ask, mbind', lift, mraise, mret, Py.fmt_d.
  destruct (file_size w local_path) as [n|] eqn:Ef; simpl.
  - rewrite Ef. simpl. destruct (Py.int_eq n size) eqn:Eq; simpl.
    + split; [reflexivity|]. split; [reflexivity|]. split; [discriminate|].
      intros ? ? [= <- <-]. eauto.
    + destruct (Py.as_int size); simpl;
        (split; [reflexivity|]; split; [reflexivity|]; split; [|discriminate]);
        intros ? ? [= <- _]; reflexivity.
  - destruct offline; simpl;
      (split; [reflexivity|]; split; [reflexivity|]; split; [|discriminate]);
      intros ? ? [= <- _]; reflexivity.
Qed.

(** [download], step by step. *)
Lemma download_run (offline : bool) (url local_path : string) (size : json) (w : World) :
  download offline url local_path size w =
  if match file_size w local_path with
     | Some n => Py.int_eq n size
     | None => false
     end
  then ([LogInfo ("[" +:+ local_path +:+ "] already exists locally. Skipping download.")],
        Done false w)
  else
    match (if negb offline then attempt_download url local_path size else mret tt) w with
    | (t, Done _ w1) =>
        let (t', o) := verify_download offline url local_path size w1 in (t ++ t', o)
    | (t, Fail e w1) => (t, Fail e w1)
    end.
Proof.
  unfold download, download_step. unfold mbind' at 1. unfold mbind' at 1.
  rewrite exists_with_size_run.
  destruct (match file_size w local_path with
            | Some n => Py.int_eq n size
            | None => false
            end).
  - reflexivity.
  - unfold mbind' at 1.
    destruct ((if negb offline then attempt_download url local_path size else mret tt) w)
      as [t [[] w1|e w1]]; simpl; [|reflexivity].
    destruct (verify_download offline url local_path size w1) as [t' o].
    rewrite app_nil_r. reflexivity.
Qed.


(** X16.  Offline, [download] touches neither the network nor the file
    system: the world is left as it was, whether the archive is found or
    the setup or data error is raised, and all it emits is the log line of
    a skipped download. *)
Theorem download_offline_is_local (url local_path : string) (size : json) (w : World) :
  outcome_world (snd (download true url local_path size w)) = w
  /\ Forall (fun e => is_download e = false) (fst (download true url local_path size w))
  /\ Forall (fun e => exists msg, e = LogInfo msg) (fst (download true url local_path size w)).
Proof.
  rewrite download_run.
  destruct (match file_size w local_path with
            | Some n => Py.int_eq n size
            | None => false
            end); simpl.
  - split; [reflexivity|]. split; repeat constructor. eauto.
  - unfold mret.
    destruct (verify_download_cases true url local_path size w) as (Ht & Hw & _ & _).
    destruct (verify_download true url local_path size w) as [t o]. simpl in *. subst t.
    split; [exact Hw|]. split; constructor.
Qed.

(** X17.  When [download] returns, the archive is there with the expected
    size.  It returns [False] only when it found the archive like that and
    did nothing but log that it skips the download, and [True] only after
    an attempt made online. *)
Theorem download_postcondition (offline : bool) (url local_path : string)
    (size : json) (w w' : World) (tr : list event) (downloaded : bool) :
  download offline url local_path size w = (tr, Done downloaded w') ->
  (exists n, file_size w' local_path = Some n /\ Py.int_eq n size = true)
  /\ (downloaded = false ->
      w' = w
      /\ tr = [LogInfo ("[" +:+ local_path +:+ "] already exists locally. Skipping download.")])
  /\ (downloaded = true -> offline = false).
Proof.
  rewrite download_run.
  destruct (match file_size w local_path with
            | Some n => Py.int_eq n size
            | None => false
            end) eqn:Ep.
  - intros [= <- <- <-]. split; [|split; [auto | discriminate]].
    destruct (file_size w local_path) as [n|]; [eauto | discriminate].
  - assert (forall w1 t' b w2,
              verify_download offline url local_path size w1 = (t', Done b w2) ->
              b = true /\ w2 = w1
              /\ exists n, file_size w1 local_path = Some n /\ Py.int_eq n size = true) as Hv.
    { intros w1 t' b w2 Hrun.
      destruct (verify_download_cases offline url local_path size w1) as (_ & Hw & _ & Hd).
      rewrite Hrun in Hw, Hd. simpl in Hw. destruct (Hd _ _ eq_refl) as [-> Hn]. auto. }
    destruct offline; simpl.
    + unfold mret.
      destruct (verify_download true url local_path size w) as [t' [b w2|e2 w2]] eqn:Ev;
        [|discriminate].
      destruct (Hv _ _ _ _ Ev) as (_ & _ & n & Hn & Hq). rewrite Hn, Hq in Ep. discriminate.
    + destruct (attempt_download url local_path size w) as [t [[] w1|e1 w1]];
        [|discriminate].
      destruct (verify_download false url local_path size w1) as [t' [b w2|e2 w2]] eqn:Ev;
        [|discriminate].
      intros [= <- <- <-]. destruct (Hv _ _ _ _ Ev) as (-> & -> & Hn).
      split; [exact Hn|]. split; [discriminate | reflexivity].
Qed.

(** The three events of a decompression that ran. *)
Lemma decompress_run (type_uncompressed : json) (data_set_path : string)
    (expected : json) (w : World) :
  decompress type_uncompressed data_set_path expected w =
  match io_splitext (JStr data_set_path) with
  | Raise e => ([], Fail e w)
  | Ok parts =>
      if match file_size w (fst parts) with
         | Some n => Py.int_eq n expected
         | None => false
         end
      then ([], Done (fst parts, false) w)
      else
        match size_in_gb type_uncompressed with
        | Raise e => ([], Fail e w)
        | Ok gb =>
            let info :=
              ConsoleInfo ("Decompressing track data from [" +:+ data_set_path +:+ "] to ["
                           +:+ fst parts +:+ "] (resulting size: " +:+ gb +:+ " GB) ... ") in
            let started := [info; IoDecompress data_set_path (io_dirname data_set_path)] in
            match io_decompress data_set_path (io_dirname data_set_path) w with
            | Fail e w1 => (started, Fail e w1)
            | Done _ w1 =>
                match file_size w1 (fst parts) with
                | None => (started ++ [ConsolePrintln "[OK]"], Fail OSError w1)
                | Some n =>
                    if Py.int_eq n expected
                    then (started ++ [ConsolePrintln "[OK]"], Done (fst parts, true) w1)
                    else
                      match Py.as_int expected with
                      | None => (started ++ [ConsolePrintln "[OK]"], Fail TypeError w1)
                      | Some x =>
                          (started ++ [ConsolePrintln "[OK]"],
                           Fail (DataError
                                   ("[" +:+ fst parts +:+ "] is corrupt. Extracted ["
                                    +:+ Py.string_of_Z n +:+ "] bytes but ["
                                    +:+ Py.string_of_Z x +:+ "] bytes are expected.")) w1)
                      end
                end
            end
        end
  end.
Proof.
  unfold decompress. unfold mbind' at 1.
  destruct (io_splitext (JStr data_set_path)) as [parts|e]; simpl; [|reflexivity].
  unfold mbind' at 1. rewrite exists_with_size_run.
  destruct (match file_size w (fst parts) with
            | Some n => Py.int_eq n expected
            | None => false
            end); simpl; [reflexivity|].
  unfold mbind' at 1.
  destruct (size_in_gb type_uncompressed) as [gb|e]; simpl; [|reflexivity].
  unfold mbind', emit, call, getsize, lift, mraise, mret, Py.fmt_d. simpl.
  destruct (io_decompress data_set_path (io_dirname data_set_path) w) as [[] w1|e w1];
    simpl; [|reflexivity].
  destruct (file_size w1 (fst parts)) as [n|]; simpl; [|reflexivity].
  destruct (Py.int_eq n expected); simpl; [reflexivity|].
  destruct (Py.as_int expected); reflexivity.
Qed.

(** Staging a document group with an archive: download, decompress,
    rebuild the offset table. *)
Lemma stage_type_run (offline : bool) (root_url : json) (t : Type_) (archive : string)
    (w : World) :
  document_archive t = Some archive ->
  archive <> EmptyString ->
  stage_type offline root_url t w =
  match download offline (data_url root_url archive) archive
          (compressed_size_in_bytes t) w with
  | (t1, Done _ w1) =>
      match decompress (uncompressed_size_in_bytes t) archive
              (uncompressed_size_in_bytes t) w1 with
      | (t2, Done r w2) =>
          (t1 ++ t2 ++ [PrepareFileOffsetTable (fst r)],
           io_prepare_file_offset_table (fst r) w2)
      | (t2, Fail e w2) => (t1 ++ t2, Fail e w2)
      end
  | (t1, Fail e w1) => (t1, Fail e w1)
  end.
Proof.
  intros Ha Hne. unfold stage_type. rewrite Ha.
  apply String.eqb_neq in Hne. rewrite Hne. simpl.
  unfold mbind' at 1.
  destruct (download offline (data_url root_url archive) archive
              (compressed_size_in_bytes t) w) as [t1 [d w1|e w1]]; [|reflexivity].
  unfold mbind' at 1.
  destruct (decompress (uncompressed_size_in_bytes t) archive
              (uncompressed_size_in_bytes t) w1) as [t2 [r w2|e w2]]; [|reflexivity].
  unfold mbind', emit, call. simpl.
  destruct (io_prepare_file_offset_table (fst r) w2); reflexivity.
Qed.

(** X18.  When [decompress] returns, the decompressed file is there with
    the expected size.  It reports no decompression only when it found the
    file like that and did nothing at all, and a decompression only after
    it called [io.decompress] on the archive. *)
Theorem decompress_postcondition (type_uncompressed : json) (data_set_path : string)
    (expected : json) (w w' : World) (tr : list event) (basename : string)
    (decompressed : bool) :
  decompress type_uncompressed data_set_path expected w
  = (tr, Done (basename, decompressed) w') ->
  (exists extension, io_splitext (JStr data_set_path) = Ok (basename, extension))
  /\ (exists n, file_size w' basename = Some n /\ Py.int_eq n expected = true)
  /\ (decompressed = false -> tr = [] /\ w' = w)
  /\ (decompressed = true ->
      In (IoDecompress data_set_path (io_dirname data_set_path)) tr).
Proof.
  rewrite decompress_run.
  destruct (io_splitext (JStr data_set_path)) as [[b x]|e]; [|discriminate]. simpl.
  destruct (file_size w b) as [n|] eqn:Ef.
  - destruct (Py.int_eq n expected) eqn:Eq.
    + intros [= <- <- <- <-]. split; [eauto|]. split; [eauto|].
      split; [auto | discriminate].
    + destruct (size_in_gb type_uncompressed); [|discriminate].
      destruct (io_decompress data_set_path (io_dirname data_set_path) w) as [[] w1|e1 w1];
        [|discriminate].
      destruct (file_size w1 b) as [n1|] eqn:Ef1; [|discriminate].
      destruct (Py.int_eq n1 expected) eqn:Eq1;
        [|destruct (Py.as_int expected); discriminate].
      intros [= <- <- <- <-]. split; [eauto|]. split; [eauto|].
      split; [discriminate|]. intros _. simpl. auto.
  - destruct (size_in_gb type_uncompressed); [|discriminate].
    destruct (io_decompress data_set_path (io_dirname data_set_path) w) as [[] w1|e1 w1];
      [|discriminate].
    destruct (file_size w1 b) as [n1|] eqn:Ef1; [|discriminate].
    destruct (Py.int_eq n1 expected) eqn:Eq1;
      [|destruct (Py.as_int expected); discriminate].
    intros [= <- <- <- <-]. split; [eauto|]. split; [eauto|].
    split; [discriminate|]. intros _. simpl. auto.
Qed.

(** X19.  When the file that [io.decompress] leaves behind has a size
    other than the expected uncompressed size, staging the document group
    stops with a data error that cites the extracted and the expected
    number of bytes, right after the decompression: the offset table is not
    rebuilt. *)
Theorem decompress_size_mismatch (offline : bool) (root_url : json) (t : Type_)
    (archive basename extension gb : string) (expected extracted : Z)
    (w w1 w2 : World) (t1 : list event) (downloaded : bool) :
  document_archive t = Some archive ->
  archive <> EmptyString ->
  download offline (data_url root_url archive) archive (compressed_size_in_bytes t) w
  = (t1, Done downloaded w1) ->
  io_splitext (JStr archive) = Ok (basename, extension) ->
  match file_size w1 basename with
  | Some n => Py.int_eq n (uncompressed_size_in_bytes t)
  | None => false
  end = false ->
  size_in_gb (uncompressed_size_in_bytes t) = Ok gb ->
  io_decompress archive (io_dirname archive) w1 = Done tt w2 ->
  file_size w2 basename = Some extracted ->
  Py.as_int (uncompressed_size_in_bytes t) = Some expected ->
  extracted <> expected ->
  exists msg,
    stage_type offline root_url t w =
    (t1 ++ [ConsoleInfo ("Decompressing track data from [" +:+ archive +:+ "] to ["
                         +:+ basename +:+ "] (resulting size: " +:+ gb +:+ " GB) ... ");
            IoDecompress archive (io_dirname archive);
            ConsolePrintln "[OK]"],
     Fail (DataError msg) w2)
    /\ msg = "[" +:+ basename +:+ "] is corrupt. Extracted [" +:+ Py.string_of_Z extracted
             +:+ "] bytes but [" +:+ Py.string_of_Z expected +:+ "] bytes are expected."
    /\ mentions msg (Py.string_of_Z extracted)
    /\ mentions msg (Py.string_of_Z expected).
Proof.
  intros Ha Hne Hd Hsplit Habsent Hgb Hdec Hfile Hexp Hdiff.
  eexists. split; [|split; [reflexivity|split; names]].
  rewrite (stage_type_run offline root_url t archive w Ha Hne), Hd.
  rewrite decompress_run, Hsplit. simpl. rewrite Habsent, Hgb, Hdec, Hfile.
  assert (Py.int_eq extracted (uncompressed_size_in_bytes t) = false) as ->.
  { unfold Py.int_eq. rewrite Hexp. apply Z.eqb_neq, Hdiff. }
  rewrite Hexp. reflexivity.
Qed.

(** X20.  Staging from nothing, online: when the download delivers an
    archive of the expected size and the decompression a file of the
    expected size, the document group is staged by, in this order, making
    the directory, downloading, decompressing into the archive's
    directory and rebuilding the offset table of the decompressed file. *)
Theorem stage_type_from_scratch (root_url : json) (t : Type_)
    (archive basename extension mb gb : string) (a u : Z) (w w1 w2 w3 : World) :
  document_archive t = Some archive ->
  archive <> EmptyString ->
  file_size w archive = None ->
  io_ensure_dir (OsPath.dirname archive) w = Done tt w1 ->
  size_in_mb (compressed_size_in_bytes t) = Ok mb ->
  net_download (data_url root_url archive) archive (compressed_size_in_bytes t) w1
  = Done tt w2 ->
  file_size w2 archive = Some a ->
  Py.int_eq a (compressed_size_in_bytes t) = true ->
  io_splitext (JStr archive) = Ok (basename, extension) ->
  file_size w2 basename = None ->
  size_in_gb (uncompressed_size_in_bytes t) = Ok gb ->
  io_decompress archive (io_dirname archive) w2 = Done tt w3 ->
  file_size w3 basename = Some u ->
  Py.int_eq u (uncompressed_size_in_bytes t) = true ->
  stage_type false root_url t w =
  ([EnsureDir (OsPath.dirname archive);
    ConsoleInfo ("Downloading data from [" +:+ data_url root_url archive +:+ "] (" +:+ mb
                 +:+ " MB) to [" +:+ archive +:+ "] ... ");
    NetDownload (data_url root_url archive) archive (compressed_size_in_bytes t);
    ConsolePrintln "[OK]";
    ConsoleInfo ("Decompressing track data from [" +:+ archive +:+ "] to ["
                 +:+ basename +:+ "] (resulting size: " +:+ gb +:+ " GB) ... ");
    IoDecompress archive (io_dirname archive);
    ConsolePrintln "[OK]";
    PrepareFileOffsetTable basename],
   io_prepare_file_offset_table basename w3).
Proof.
  intros Ha Hne Hnone Hdir Hmb Hnet Hfa Hca Hsplit Hnob Hgb Hdec Hfu Hcu.
  rewrite (stage_type_run false root_url t archive w Ha Hne).
  rewrite download_run, Hnone. simpl.
  unfold attempt_download, try_except, mbind', emit, call, lift, mret. simpl.
  rewrite Hdir. simpl. rewrite Hmb. simpl. rewrite Hnet. simpl.
  unfold verify_download, isfile, getsize, ask, mbind', mret. rewrite Hfa. simpl.
  rewrite Hfa. simpl. rewrite Hca. simpl.
  rewrite decompress_run, Hsplit. simpl. rewrite Hnob, Hgb, Hdec, Hfu, Hcu.
  reflexivity.
Qed.

Lemma mfor_app {A} (xs ys : list A) (body : A -> M World unit) (w : World) :
  mfor (xs ++ ys) body w = (mfor xs body >> mfor ys body) w.
Proof.
  revert w. induction xs as [|x xs IH]; intros w; simpl.
  - unfold mbind', mret. destruct (mfor ys body w). reflexivity.
  - unfold mbind'.
    destruct (body x w) as [t [[] w1|e w1]]; [|reflexivity].
    rewrite IH. unfold mbind'.
    destruct (mfor xs body w1) as [t1 [[] w2|e w2]]; [|reflexivity].
    destruct (mfor ys body w2) as [t2 o]. rewrite app_assoc. reflexivity.
Qed.

Lemma prepare_track_loop (track : Track) (offline : bool) (w : World) :
  prepare_track track offline w =
  mfor (flat_map types (indices track))
       (fun type => stage_type offline (source_root_url track) type) w.
Proof.
  unfold prepare_track. revert w.
  induction (indices track) as [|index rest IH]; intros w; simpl; [reflexivity|].
  rewrite mfor_app. unfold mbind'.
  destruct (mfor (types index) _ w) as [t [[] w1|e w1]]; [|reflexivity].
  rewrite IH. reflexivity.
Qed.

Lemma mfor_stops {A} (pre : list A) (x : A) (post : list A) (body : A -> M World unit)
    (w w1 w2 : World) (t1 t2 : list event) (e : exn) :
  mfor pre body w = (t1, Done tt w1) ->
  body x w1 = (t2, Fail e w2) ->
  mfor (pre ++ x :: post) body w = (t1 ++ t2, Fail e w2).
Proof.
  intros Hpre Hx. rewrite mfor_app. unfold mbind' at 1. rewrite Hpre.
  simpl. unfold mbind'. rewrite Hx. reflexivity.
Qed.

(** X21.  [prepare_track] stages the document groups of all indices one
    after the other and stops at the first one that fails: with the groups
    before it staged, the exception of the failing group is the exception
    of [prepare_track], the trace ends with that group's, and nothing is
    done for the groups after it. *)
Theorem prepare_track_stops_at_failure (track : Track) (offline : bool)
    (pre post : list Type_) (type : Type_) (w w1 w2 : World) (t1 t2 : list event)
    (e : exn) :
  flat_map types (indices track) = pre ++ type :: post ->
  mfor pre (fun type => stage_type offline (source_root_url track) type) w
  = (t1, Done tt w1) ->
  stage_type offline (source_root_url track) type w1 = (t2, Fail e w2) ->
  prepare_track track offline w = (t1 ++ t2, Fail e w2).
Proof.
  intros Hflat Hpre Hfail. rewrite prepare_track_loop, Hflat.
  eapply mfor_stops; eassumption.
Qed.

(** X22.  A track none of whose document groups has an archive needs no
    staging: [prepare_track] does nothing and leaves the world as it is. *)
Theorem prepare_track_without_archives (track : Track) (offline : bool) (w : World) :
  Forall (fun type => document_archive type = None
                      \/ document_archive type = Some EmptyString)
         (flat_map types (indices track)) ->
  prepare_track track offline w = ([], Done tt w).
Proof.
  rewrite prepare_track_loop.
  induction (flat_map types (indices track)) as [|t ts IH]; intros Hall; [reflexivity|].
  inversion Hall as [|? ? Ht Hts]; subst. simpl. unfold mbind'.
  assert (stage_type offline (source_root_url track) t w = ([], Done tt w)) as ->.
  { unfold stage_type. destruct Ht as [-> | ->]; reflexivity. }
  rewrite (IH Hts). reflexivity.
Qed.

End StagerMore.

(** ** More of the track repository *)

Section RepositoryMore.
Context {RT : PyRuntime} {World : Type} {GIT : GitIO World} {WC : WorkingCopyIO World}.
Import Repository RepositoryFiles.


(** X24.  With a remote, online, and a remote branch for the distribution
    version: [_update] checks the branch out and rebases on it, and does
    not look at the local branches.  A rebase that git refuses is logged
    and reported as a warning on the console, and [_update] returns all the
    same. *)
Theorem update_remote_match (self : TrackRepository) (version : json) (branch : string)
    (w w1 w2 : World) (branches : list string) :
  remote self = true ->
  offline self = false ->
  git_branches (tracks_dir self) true w = Done branches w1 ->
  found (versions_best_match branches version) = Some branch ->
  git_checkout (tracks_dir self) branch w1 = Done tt w2 ->
  let rebasing :=
    [LogInfo (checking_out self branch version);
     GitCheckout branch;
     LogInfo ("Rebasing on [" +:+ branch +:+ "] in [" +:+ tracks_dir self
              +:+ "] for distribution version [" +:+ Py.str version +:+ "].");
     GitRebase branch] in
  (forall w3,
      git_rebase (tracks_dir self) branch w2 = Done tt w3 ->
      _update self version w = (rebasing, Done tt w3))
  /\ (forall w3,
        git_rebase (tracks_dir self) branch w2 = Fail SupplyError w3 ->
        _update self version w =
        (rebasing ++
         [LogException ("Cannot rebase due to local changes in [" +:+ tracks_dir self +:+ "]");
          ConsoleWarn ("Local changes in [" +:+ tracks_dir self
                       +:+ "] prevent track update from remote. "
                       +:+ "Please commit your changes.")],
         Done tt w3)).
Proof.
  intros Hremote Honline Hb Hfound Hco rebasing.
  split; intros w3 Hrebase;
    unfold _update, update_body, try_except, mbind', call, emit, mraise;
    rewrite Hremote, Honline; simpl;
    repeat (first [ rewrite Hb | rewrite Hfound | rewrite Hco | rewrite Hrebase ]; simpl);
    reflexivity.
Qed.



(** X26.  Offline or without a remote, a checkout of the matching local
    branch that git refuses ends [_update] with a data error that names
    the directory of the tracks. *)
Theorem update_checkout_refused (self : TrackRepository) (version : json) (branch : string)
    (w w1 w2 : World) (branches : list string) :
  remote self = false \/ offline self = true ->
  git_branches (tracks_dir self) false w = Done branches w1 ->
  found (versions_best_match branches version) = Some branch ->
  git_checkout (tracks_dir self) branch w1 = Fail SupplyError w2 ->
  _update self version w =
  ([LogInfo (checking_out self branch version); GitCheckout branch],
   Fail (DataError ("Cannot update track data in [" +:+ tracks_dir self +:+ "].")) w2).
Proof.
  intros Hlocal Hb Hfound Hco.
  assert ((remote self && negb (offline self))%bool = false) as Hl.
  { destruct Hlocal as [-> | ->]; [reflexivity | apply andb_false_r]. }
  unfold _update, update_body, update_local, try_except, mbind', call, emit, mraise.
  rewrite Hl. simpl.
  repeat (first [ rewrite Hb | rewrite Hfound | rewrite Hco ]; simpl).
  reflexivity.
Qed.

(** X27.  Once the working copy is updated, [track_names] lists the
    directories of the tracks directory in the order [os.walk] gives them,
    leaving out exactly those whose name starts with a dot. *)
Theorem track_names_visible (self : TrackRepository) (version : json)
    (w w' : World) (tr : list event) (dirs : list string) :
  _update self version w = (tr, Done tt w') ->
  os_walk_dirs (tracks_dir self) w' = Some dirs ->
  exists names,
    track_names self version w = (tr, Done names w')
    /\ names = List.filter visible dirs
    /\ (forall d, In d names <-> In d dirs /\ String.prefix "." d = false)
    /\ (Forall (fun d => String.prefix "." d = false) dirs -> names = dirs).
Proof.
  intros Hu Hdirs. exists (List.filter visible dirs).
  split; [|split; [reflexivity|split]].
  - unfold track_names, mbind'. rewrite Hu, Hdirs. rewrite app_nil_r. reflexivity.
  - intros d. rewrite filter_In. unfold visible. rewrite negb_true_iff. reflexivity.
  - intros Hall. clear Hdirs.
    induction Hall as [|d ds Hd _ IH]; simpl; [reflexivity|].
    unfold visible at 1. rewrite Hd. simpl. rewrite IH. reflexivity.
Qed.


End RepositoryMore.

(** ** The added code on concrete inputs *)

Lemma r_non_mapping_type_error_witness :
  non_mapping (JObj [("meta", JStr "geonames")])
    (Reader.path_keys (PList ["meta"; "data-url"])) = true
  /\ Reader._r (JStr "geonames") (JObj [("meta", JStr "geonames")])
       (PList ["meta"; "data-url"]) JNull false (JStr "http://localhost")
     = Raise TypeError.
Proof.
  split; [reflexivity|].
  exact (r_non_mapping_type_error (JStr "geonames") (JObj [("meta", JStr "geonames")])
           (PList ["meta"; "data-url"]) eq_refl JNull false (JStr "http://localhost")).
Defined.

Lemma r_raises_only_witness :
  exists e,
    Reader._r (JStr "geonames") (JObj geonames_spec) (PList ["meta"; "license"])
      (JStr "meta") true JNull = Raise e
    /\ Reader.missing (JObj geonames_spec) ["meta"; "license"] = true
    /\ exists msg, e = TrackSyntaxError msg.
Proof.
  eexists. split; [reflexivity|].
  destruct (r_raises_only (JStr "geonames") (JObj geonames_spec)
              (PList ["meta"; "license"]) (JStr "meta") true JNull _ eq_refl)
    as [[He _]|(_ & Hm & Hmsg)]; [discriminate He|].
  split; [exact Hm | exact Hmsg].
Defined.

Lemma parse_operations_origin_witness :
  exists o,
    Reader.ops_get (JStr "merge") sample_ops = Some o
    /\ In (Reader.op_params o)
          [JObj [("name", JStr "index-append"); ("operation-type", JStr "index")];
           JObj [("name", JStr "merge"); ("operation-type", JStr "Force-Merge")];
           JObj [("name", JStr "percolate"); ("operation-type", JStr "percolator-query")]]
    /\ Py.key_eq (JStr "merge") (Reader.op_name o) = true.
Proof.
  eexists. split; [reflexivity|].
  destruct (parse_operations_origin (TM := track_module) (JStr "geonames")
              sample_operations sample_ops (JStr "merge") _ eq_refl eq_refl)
    as (op_specs & Hiter & Hin & _ & Hk).
  injection Hiter as <-. split; [exact Hin | exact Hk].
Defined.

Lemma last_definition_wins_witness :
  exists ops o,
    Reader.parse_operations (JStr "geonames") (JList [merge_first; JObj merge_last]) = Ok ops
    /\ Reader.ops_get (JStr "merge") ops = Some o
    /\ Reader.op_params o = JObj merge_last.
Proof.
  eexists.
  destruct (last_definition_wins (TM := track_module) (JStr "geonames")
              [merge_first] [] merge_last (JStr "merge") _ eq_refl eq_refl
              ltac:(constructor))
    as (o & Hg & _ & Hp).
  exists o. split; [reflexivity|]. split; [exact Hg | exact Hp].
Defined.

Lemma top_level_task_values_witness :
  Reader.parse_schedule_entry (JStr "geonames")
    (JObj [("operation", JStr "index-append"); ("clients", JInt 8)])
    sample_ops (JStr "append-only")
  = Ok (Reader.ETask (Reader.mkTask index_append (JInt 0) JNull (JInt 1) (JInt 8) JNull)).
Proof.
  exact (top_level_task_values (JStr "geonames")
           [("operation", JStr "index-append"); ("clients", JInt 8)]
           sample_ops (JStr "append-only") (JStr "index-append") index_append
           eq_refl eq_refl eq_refl eq_refl).
Defined.

Lemma parallel_block_tasks_witness :
  exists p,
    Reader.parse_parallel (JStr "geonames") (JObj parallel_spec) sample_ops
      (JStr "append-only") = Ok p
    /\ Reader.parallel_clients p = JInt 4
    /\ length (Reader.tasks p) = 2%nat
    /\ map Reader.clients (Reader.tasks p) = [JInt 1; JInt 2].
Proof.
  eexists. split; [reflexivity|].
  destruct (parallel_block_tasks (JStr "geonames") parallel_spec _ sample_ops
              (JStr "append-only") _ eq_refl eq_refl) as (Hc & Hl & _).
  split; [exact Hc|]. split; [exact Hl | reflexivity].
Defined.

Lemma challenge_schedule_in_order_witness :
  exists c,
    Reader.parse_challenge (JStr "geonames") sample_ops (JObj challenge_spec) = Ok c
    /\ Py.lookup "name" challenge_spec = Some (Reader.challenge_name c)
    /\ length (Reader.schedule c) = 2%nat
    /\ Forall2 (fun entry parsed =>
                  Py.contains "parallel" entry = Ok true <->
                  exists p, parsed = Reader.EParallel p)
               [JObj [("operation", JStr "index-append"); ("clients", JInt 8)];
                JObj [("parallel", JObj parallel_spec)]]
               (Reader.schedule c).
Proof.
  eexists. split; [reflexivity|].
  destruct (challenge_schedule_in_order (JStr "geonames") challenge_spec _ sample_ops _
              eq_refl eq_refl) as (Hn & _ & Hl & Hf).
  split; [exact Hn|]. split; [exact Hl|].
  eapply Forall2_impl; [exact Hf|]. intros entry parsed [_ Hp]. exact Hp.
Defined.

Lemma create_challenges_in_order_witness :
  exists cs,
    Reader._create_challenges (JStr "geonames") (JObj geonames_spec) = Ok cs
    /\ length cs = 1%nat
    /\ Forall2 (fun spec c => Reader.parse_challenge (JStr "geonames") sample_ops spec = Ok c)
               [JObj challenge_spec] cs.
Proof.
  eexists. split; [reflexivity|].
  destruct (create_challenges_in_order (TM := track_module) (JStr "geonames")
              geonames_spec _ _ eq_refl eq_refl)
    as (ops_specs & ops & Hs & Ho & Hl & Hf).
  change (Some sample_operations = Some ops_specs) in Hs. injection Hs as <-.
  change (Ok sample_ops = Ok ops) in Ho. injection Ho as <-.
  split; [exact Hl | exact Hf].
Defined.

Lemma challenge_missing_field_witness :
  exists msg,
    Reader.parse_challenge (JStr "geonames") sample_ops
      (JObj [("name", JStr "append-only"); ("description", JStr "Index and merge")])
    = Raise (TrackSyntaxError msg)
    /\ mentions msg "append-only"
    /\ mentions msg "schedule".
Proof.
  destruct (challenge_missing_field (JStr "geonames")
              [("name", JStr "append-only"); ("description", JStr "Index and merge")]
              sample_ops (JStr "append-only") eq_refl eq_refl (or_intror eq_refl))
    as (msg & field & Hr & Hnone & [-> | ->] & Hn & Hf).
  - discriminate Hnone.
  - exists msg. split; [exact Hr|]. split; [exact Hn | exact Hf].
Defined.

Lemma create_type_paths_witness :
  Reader._create_type (JStr "geonames") docs_spec "tracks/geonames" "data/geonames"
  = Ok documents
  /\ Reader._create_type (JStr "geonames")
       (JObj [("name", JStr "logs"); ("mapping", JStr "logs.json");
              ("documents", JStr EmptyString)])
       "tracks/geonames" "data/geonames"
     = Ok mapping_only.
Proof.
  split.
  - exact (proj2 (create_type_paths (TM := track_module) (JStr "geonames")
                    [("name", JStr "docs"); ("mapping", JStr "mappings.json");
                     ("documents", JStr "documents.json.bz2"); ("document-count", JInt 8000);
                     ("compressed-bytes", JInt 100); ("uncompressed-bytes", JInt 2500)]
                    "tracks/geonames" "data/geonames" (JStr "docs") (JStr "mappings.json")
                    eq_refl eq_refl)
             "documents.json" ".bz2" eq_refl eq_refl).
  - exact (proj1 (create_type_paths (TM := track_module) (JStr "geonames")
                    [("name", JStr "logs"); ("mapping", JStr "logs.json");
                     ("documents", JStr EmptyString)]
                    "tracks/geonames" "data/geonames" (JStr "logs") (JStr "logs.json")
                    eq_refl eq_refl)
             eq_refl).
Defined.

Lemma create_index_warns_witness :
  exists warnings index,
    Specification._create_index (JStr "geonames")
      (JObj [("name", JStr "queries"); ("types", JList [])])
      "tracks/geonames" "data/geonames" = (warnings, Ok index)
    /\ Py.lookup "name" [("name", JStr "queries"); ("types", JList [])]
       = Some (index_name index)
    /\ warnings = [ConsoleWarn (Specification.no_documents_warning (index_name index))].
Proof.
  eexists. eexists. split; [reflexivity|].
  destruct (create_index_warns (TM := track_module) (DD := document_data) (JStr "geonames")
              [("name", JStr "queries"); ("types", JList [])] []
              "tracks/geonames" "data/geonames" _ _ eq_refl eq_refl)
    as (Hn & _ & _ & Hw).
  split; [exact Hn|]. apply Hw. intros type [].
Defined.


Lemma call_builds_track_witness :
  exists warnings t,
    Specification.__call__ (JStr "geonames") (JObj geonames_spec)
      "tracks/geonames" "data/geonames" = (warnings, Ok t)
    /\ track_name t = JStr "geonames"
    /\ Py.lookup "data-url" geonames_meta = Some (source_root_url t)
    /\ Reader._create_challenges (JStr "geonames") (JObj geonames_spec) = Ok (challenges t).
Proof.
  eexists. eexists. split; [reflexivity|].
  destruct (call_builds_track (TM := track_module) (DD := document_data) (JStr "geonames")
              geonames_spec geonames_meta _ "tracks/geonames" "data/geonames" _ _
              eq_refl eq_refl eq_refl)
    as (Hn & _ & _ & Hu & _ & Hc).
  split; [exact Hn|]. split; [exact Hu | exact Hc].
Defined.


Lemma download_postcondition_witness :
  exists tr w',
    Stager.download false (Stager.data_url geonames_url "data/geonames/documents.json.bz2")
      "data/geonames/documents.json.bz2" (JInt 100) serving_world = (tr, Done true w')
    /\ exists n, file_size w' "data/geonames/documents.json.bz2" = Some n
                 /\ Py.int_eq n (JInt 100) = true.
Proof.
  eexists. eexists. split; [reflexivity|].
  exact (proj1 (download_postcondition false
                  (Stager.data_url geonames_url "data/geonames/documents.json.bz2")
                  "data/geonames/documents.json.bz2" (JInt 100) serving_world _ _ true
                  eq_refl)).
Defined.

Lemma decompress_postcondition_witness :
  exists tr w',
    Stager.decompress (JInt 2500) "data/geonames/documents.json.bz2" (JInt 2500)
      serving_world = (tr, Done ("data/geonames/documents.json", true) w')
    /\ (exists n, file_size w' "data/geonames/documents.json" = Some n
                  /\ Py.int_eq n (JInt 2500) = true)
    /\ In (IoDecompress "data/geonames/documents.json.bz2" "data/geonames") tr.
Proof.
  eexists. eexists. split; [reflexivity|].
  destruct (decompress_postcondition (TM := track_module) (IO := stager_io) (JInt 2500)
              "data/geonames/documents.json.bz2" (JInt 2500) serving_world _ _
              "data/geonames/documents.json" true eq_refl)
    as (_ & Hn & _ & Hd).
  split; [exact Hn | exact (Hd eq_refl)].
Defined.

Lemma decompress_size_mismatch_witness :
  exists tr w' msg,
    Stager.stage_type true geonames_url documents short_inflate_world
    = (tr, Fail (DataError msg) w')
    /\ file_size w' "data/geonames/documents.json" = Some 2000
    /\ mentions msg "2000" /\ mentions msg "2500".
Proof.
  destruct (decompress_size_mismatch (TM := track_module) true geonames_url documents
              "data/geonames/documents.json.bz2" "data/geonames/documents.json" ".bz2"
              "0.00" 2500 2000 short_inflate_world short_inflate_world
              (write "data/geonames/documents.json" 2000 short_inflate_world) _ false
              eq_refl ltac:(discriminate) eq_refl eq_refl eq_refl eq_refl eq_refl eq_refl
              eq_refl ltac:(discriminate))
    as (msg & Hrun & _ & Ha & He).
  eexists. eexists. exists msg. split; [exact Hrun|]. split; [reflexivity|].
  split; [exact Ha | exact He].
Defined.

Lemma stage_type_from_scratch_witness :
  exists w3,
    file_size serving_world "data/geonames/documents.json.bz2" = None
    /\ Stager.stage_type false geonames_url documents serving_world =
       ([EnsureDir "data/geonames";
         ConsoleInfo "Downloading data from [http://benchmarks.example.org/geonames/documents.json.bz2] (0 MB) to [data/geonames/documents.json.bz2] ... ";
         NetDownload "http://benchmarks.example.org/geonames/documents.json.bz2"
           "data/geonames/documents.json.bz2" (JInt 100);
         ConsolePrintln "[OK]";
         ConsoleInfo "Decompressing track data from [data/geonames/documents.json.bz2] to [data/geonames/documents.json] (resulting size: 0.00 GB) ... ";
         IoDecompress "data/geonames/documents.json.bz2" "data/geonames";
         ConsolePrintln "[OK]";
         PrepareFileOffsetTable "data/geonames/documents.json"],
        Done tt w3)
    /\ file_size w3 "data/geonames/documents.json.bz2" = Some 100
    /\ file_size w3 "data/geonames/documents.json" = Some 2500.
Proof.
  eexists. split; [reflexivity|]. split.
  - exact (stage_type_from_scratch (TM := track_module) geonames_url documents
             "data/geonames/documents.json.bz2" "data/geonames/documents.json" ".bz2"
             "0" "0.00" 100 2500 serving_world serving_world
             (write "data/geonames/documents.json.bz2" 100 serving_world)
             (write "data/geonames/documents.json" 2500
                (write "data/geonames/documents.json.bz2" 100 serving_world))
             eq_refl ltac:(discriminate) eq_refl eq_refl eq_refl eq_refl eq_refl eq_refl
             eq_refl eq_refl eq_refl eq_refl eq_refl eq_refl).
  - split; reflexivity.
Defined.

Lemma prepare_track_stops_at_failure_witness :
  exists tr w' msg,
    Stager.prepare_track two_groups true staged_world
    = (tr, Fail (SystemSetupError msg) w')
    /\ tr = [LogInfo "[data/geonames/documents.json.bz2] already exists locally. Skipping download.";
             PrepareFileOffsetTable "data/geonames/documents.json"]
    /\ mentions msg "data/geonames/queries.json.bz2".
Proof.
  eexists. eexists. eexists. split.
  - exact (prepare_track_stops_at_failure (TM := track_module) two_groups true
             [documents] [] percolator staged_world _ _ _ [] _
             eq_refl eq_refl eq_refl).
  - split; reflexivity.
Defined.

Lemma prepare_track_without_archives_witness :
  Stager.prepare_track no_data false empty_world = ([], Done tt empty_world).
Proof.
  apply (prepare_track_without_archives (TM := track_module) no_data false empty_world).
  repeat constructor.
Defined.


Lemma update_remote_match_witness :
  (exists tr w',
      Repository._update geonames_repository (JStr "5") default_tracks = (tr, Done tt w')
      /\ checked_out w' = Some "5" /\ length tr = 4%nat)
  /\ (exists tr w',
        Repository._update geonames_repository (JStr "5") diverged_tracks = (tr, Done tt w')
        /\ checked_out w' = Some "5"
        /\ In (ConsoleWarn "Local changes in [benchmarks/tracks/default] prevent track update from remote. Please commit your changes.") tr).
Proof.
  split.
  - eexists. eexists. split.
    + exact (proj1 (update_remote_match geonames_repository (JStr "5") "5"
                      default_tracks default_tracks _ ["1"; "5"]
                      eq_refl eq_refl eq_refl eq_refl eq_refl) _ eq_refl).
    + split; reflexivity.
  - eexists. eexists. split.
    + exact (proj2 (update_remote_match geonames_repository (JStr "5") "5"
                      diverged_tracks diverged_tracks _ ["1"; "5"]
                      eq_refl eq_refl eq_refl eq_refl eq_refl) _ eq_refl).
    + split; [reflexivity | simpl; auto 10].
Defined.


Lemma update_checkout_refused_witness :
  Repository._update offline_repository (JStr "2") locked_tracks =
  ([LogInfo "Checking out [2] in [benchmarks/tracks/default] for distribution version [2].";
    GitCheckout "2"],
   Fail (DataError "Cannot update track data in [benchmarks/tracks/default].") locked_tracks).
Proof.
  exact (update_checkout_refused offline_repository (JStr "2") "2"
           locked_tracks locked_tracks locked_tracks ["master"; "2"]
           (or_intror eq_refl) eq_refl eq_refl eq_refl).
Defined.

Lemma track_names_visible_witness :
  exists tr w',
    RepositoryFiles.track_names offline_repository (JStr "2") default_tracks
    = (tr, Done ["geonames"; "logging"] w').
Proof.
  destruct (track_names_visible (GIT := directory_git) (WC := directory_working_copy)
              offline_repository (JStr "2") default_tracks _ _
              [".git"; "geonames"; ".idea"; "logging"] eq_refl eq_refl)
    as (names & Hrun & -> & _).
  eexists. eexists. exact Hrun.
Defined.

